(** * Fraud-detection agent: signal tools, loader and orchestrator

    A shallow embedding of the deterministic parts of the repository
    ([src/agent/tools.py], [src/data/loader.py], [src/prompts.py],
    [src/agent/agent.py], [app.py]) and the properties its specification
    states about them, followed by further properties of the code.

    Conventions of the embedding.
    - A finite Python [float] is the rational it denotes ([Q]), so the
      comparisons of the code are the exact ones.  The arithmetic whose
      rounding decides an answer is not computed on rationals: the double
      quotient of [check_balance_anomaly] and the float32 operations
      behind [compare_to_account_average] are variables of their
      sections, and [Double.div] is IEEE double division itself, for
      evaluation.  The fraud rate of a window, a quotient of two row
      counts tested against 5 and 0, is kept as a rational.  A result
      that may be not-a-number (the sample standard deviation of a single
      value) is a [pyfloat], a rational or [NaN].
    - A pandas [DataFrame] is the list of its rows, top to bottom; the index
      label is a field of the row.
    - What pandas and numpy decide (which rows [sample] draws, how
      [sort_values] orders equal keys, the float32 statistics of a
      column) is a variable of the section that uses it.
    - The language model behind [agent_executor.invoke] is an oracle: a
      function from the messages it is sent to what the call does. *)

From Stdlib Require Import ZArith QArith Qround Bool List Ascii String.
From Stdlib Require Import Permutation Sorted Lia Lqa.
From Stdlib Require PrimFloat FloatOps SpecFloat Uint63.
Import ListNotations.

Open Scope string_scope.
Open Scope Z_scope.

(* ====================================================================== *)
(** * Python values: exceptions, results and strings *)

Module Py.

(** A raised [Exception]: its class and [str(e)].  Signals that derive
    from [BaseException] only ([KeyboardInterrupt], [SystemExit]) are not
    failures of a call and are outside the model. *)
Record exn : Type := mkExn {
  exn_class : string;
  exn_str : string
}.

Definition ValueError (msg : string) : exn := mkExn "ValueError" msg.
Definition FileNotFoundError (msg : string) : exn :=
  mkExn "FileNotFoundError" msg.
Definition IndexError (msg : string) : exn := mkExn "IndexError" msg.

(** A call returns a value or raises. *)
Inductive result (A : Type) : Type :=
| Return (a : A)
| Raise (e : exn).
Arguments Return {A} a.
Arguments Raise {A} e.

Definition raises {A : Type} (r : result A) : bool :=
  match r with
  | Return _ => false
  | Raise _ => true
  end.

(** [c.lower()] on the ASCII letters; a byte outside [A-Z] is kept.  A
    cased letter outside ASCII, which [str.lower] lowers too, stays as it
    is typed: none of them lowers to a letter of a mode name, so the test
    of the mode is the same, and only the text that shows the mode back
    differs for such a letter. *)
Definition lower_ascii (c : ascii) : ascii :=
  let n := nat_of_ascii c in
  if ((65 <=? n)%nat && (n <=? 90)%nat)%bool then ascii_of_nat (n + 32) else c.

Definition upper_ascii (c : ascii) : ascii :=
  let n := nat_of_ascii c in
  if ((97 <=? n)%nat && (n <=? 122)%nat)%bool then ascii_of_nat (n - 32) else c.

Fixpoint lower (s : string) : string :=
  match s with
  | EmptyString => EmptyString
  | String c rest => String (lower_ascii c) (lower rest)
  end.

(** [x in xs] on strings. *)
Definition str_in (x : string) (xs : list string) : bool :=
  existsb (String.eqb x) xs.

(** [sep.join(parts)] *)
Fixpoint join (sep : string) (parts : list string) : string :=
  match parts with
  | [] => ""
  | [p] => p
  | p :: rest => p ++ sep ++ join sep rest
  end.

(** [sub in s] *)
Fixpoint contains (sub s : string) : bool :=
  if prefix sub s then true
  else
    match s with
    | EmptyString => false
    | String _ rest => contains sub rest
    end.

(** The line feed. *)
Definition NL : ascii := ascii_of_nat 10.

(** [c in s] for a character. *)
Fixpoint has_char (c : ascii) (s : string) : bool :=
  match s with
  | EmptyString => false
  | String x rest => if Ascii.eqb x c then true else has_char c rest
  end.

(** [c.islower()] on the ASCII letters. *)
Definition is_lower_letter (c : ascii) : bool :=
  let n := nat_of_ascii c in ((97 <=? n)%nat && (n <=? 122)%nat)%bool.

Fixpoint all_lower (s : string) : bool :=
  match s with
  | EmptyString => true
  | String c rest => is_lower_letter c && all_lower rest
  end.

(** The ASCII characters for which [str.isspace] holds. *)
Definition is_space (c : ascii) : bool :=
  let n := nat_of_ascii c in
  (((9 <=? n)%nat && (n <=? 13)%nat) || ((28 <=? n)%nat && (n <=? 32)%nat))%bool.

(** A [str] is held as its UTF-8 bytes. *)
Definition utf8 (bytes : list nat) : string :=
  fold_right (fun n s => String (ascii_of_nat n) s) "" bytes.

(** The code points for which [str.isspace] holds, each as its UTF-8
    bytes: U+0009 to U+000D, U+001C to U+0020, U+0085, U+00A0, U+1680,
    U+2000 to U+200A, U+2028, U+2029, U+202F, U+205F and U+3000. *)
Definition whitespace : list string :=
  map utf8
    [[9]; [10]; [11]; [12]; [13]; [28]; [29]; [30]; [31]; [32];
     [194; 133]; [194; 160]; [225; 154; 128];
     [226; 128; 128]; [226; 128; 129]; [226; 128; 130]; [226; 128; 131];
     [226; 128; 132]; [226; 128; 133]; [226; 128; 134]; [226; 128; 135];
     [226; 128; 136]; [226; 128; 137]; [226; 128; 138];
     [226; 128; 168]; [226; 128; 169]; [226; 128; 175];
     [226; 129; 159]; [227; 128; 128]]%nat.

(** [ch.isspace()] for one code point. *)
Definition isspace (ch : string) : bool := str_in ch whitespace.

(** The number of bytes of the sequence that a byte starts. *)
Definition width (c : ascii) : nat :=
  let n := nat_of_ascii c in
  if (n <? 192)%nat then 1%nat
  else if (n <? 224)%nat then 2%nat
  else if (n <? 240)%nat then 3%nat
  else 4%nat.

(** The code points of a [str], in order; a sequence cut short by the end
    of the text is read byte by byte. *)
Fixpoint code_points (s : string) : list string :=
  match s with
  | EmptyString => []
  | String c1 r1 =>
      match width c1, r1 with
      | 2%nat, String c2 r2 =>
          String c1 (String c2 "") :: code_points r2
      | 3%nat, String c2 (String c3 r3) =>
          String c1 (String c2 (String c3 "")) :: code_points r3
      | 4%nat, String c2 (String c3 (String c4 r4)) =>
          String c1 (String c2 (String c3 (String c4 ""))) :: code_points r4
      | _, _ => String c1 "" :: code_points r1
      end
  end.

(** The list without its leading elements that satisfy [p]. *)
Fixpoint dropwhile {A : Type} (p : A -> bool) (l : list A) : list A :=
  match l with
  | [] => []
  | x :: rest => if p x then dropwhile p rest else l
  end.

(** [s.strip()]: the white space is dropped at both ends, code point by
    code point. *)
Definition strip (s : string) : string :=
  join "" (rev (dropwhile isspace (rev (dropwhile isspace (code_points s))))).

(** [if s] on a string: the empty string is false. *)
Definition truthy (s : string) : bool :=
  match s with
  | EmptyString => false
  | _ => true
  end.

End Py.

(* ====================================================================== *)
(** * Numbers *)

Module PyNum.

(** Python's [x > y] and [x <= y] on finite floats. *)
Definition gt (x y : Q) : bool := negb (Qle_bool x y).
Definition le (x y : Q) : bool := Qle_bool x y.

(** A float that may be not-a-number. *)
Inductive pyfloat : Type :=
| NaN
| Fin (q : Q).

(** A binary operation of the floats: not-a-number is absorbing, and
    [op] is what the operation gives on two numbers. *)
Definition lift2 (op : Q -> Q -> pyfloat) (x y : pyfloat) : pyfloat :=
  match x, y with
  | Fin a, Fin b => op a b
  | _, _ => NaN
  end.

(** [x > y]: every comparison with not-a-number is [False]. *)
Definition fgt (x y : pyfloat) : bool :=
  match x, y with
  | Fin a, Fin b => gt a b
  | _, _ => false
  end.

End PyNum.

(* ====================================================================== *)
(** * IEEE doubles *)

(** Python's [float] arithmetic on the machine: binary64, round to
    nearest even.  A double is read back as the rational it denotes. *)
Module Double.

(** A positive integer is [odd_part p * 2 ^ twos p]. *)
Fixpoint twos (p : positive) : Z :=
  match p with
  | xO p' => 1 + twos p'
  | _ => 0
  end.

Fixpoint odd_part (p : positive) : positive :=
  match p with
  | xO p' => odd_part p'
  | _ => p
  end.

(** The double [p * 2 ^ e], for [p] below [2^53]. *)
Definition scaled (p : positive) (e : Z) : PrimFloat.float :=
  FloatOps.Z.ldexp (PrimFloat.of_uint63 (Uint63.of_Z (Z.pos p))) e.

Definition of_Z (z : Z) : PrimFloat.float :=
  match z with
  | Z0 => PrimFloat.zero
  | Z.pos p => scaled (odd_part p) (twos p)
  | Z.neg p => PrimFloat.opp (scaled (odd_part p) (twos p))
  end.

(** The double that reads [q].  A [q] that is a double, an integer over
    a power of two, is that double.  Another [q] is the quotient of its
    numerator and its denominator, rounded once when both are doubles,
    as a decimal literal of Python is. *)
Definition of_Q (q : Q) : PrimFloat.float :=
  match odd_part (Qden q) with
  | xH =>
      match Qnum q with
      | Z0 => PrimFloat.zero
      | Z.pos p => scaled (odd_part p) (twos p - twos (Qden q))
      | Z.neg p =>
          PrimFloat.opp (scaled (odd_part p) (twos p - twos (Qden q)))
      end
  | _ => PrimFloat.div (of_Z (Qnum q)) (of_Z (Z.pos (Qden q)))
  end.

(** The rational that a double denotes.  An infinity is read as [2^1024]
    with its sign, which is beyond every finite double, so that the order
    against the finite doubles is kept; not-a-number has no reading and is
    given that of zero. *)
Definition to_Q (f : PrimFloat.float) : Q :=
  match FloatOps.Prim2SF f with
  | SpecFloat.S754_zero _ => 0
  | SpecFloat.S754_infinity s =>
      if s then - Qpower 2 1024 else Qpower 2 1024
  | SpecFloat.S754_nan => 0
  | SpecFloat.S754_finite s m e =>
      (if s then inject_Z (Z.neg m) else inject_Z (Z.pos m)) * Qpower 2 e
  end%Q.

(** [float(q)] as a rational. *)
Definition as_double (q : Q) : Q := to_Q (of_Q q).

(** [a / b] on two doubles. *)
Definition div (a b : Q) : Q := to_Q (PrimFloat.div (of_Q a) (of_Q b)).

End Double.

(* ====================================================================== *)
(** * The transaction store *)

Module Store.

(** One row of the PaySim frame; the columns are those of [DTYPES] in
    [loader.py], [index] is the row's index label. *)
Record TransactionRecord : Type := mkRecord {
  index : Z;
  step : Z;
  type : string;
  amount : Q;
  nameOrig : string;
  oldbalanceOrg : Q;
  newbalanceOrig : Q;
  nameDest : string;
  oldbalanceDest : Q;
  newbalanceDest : Q;
  isFraud : Z;
  isFlaggedFraud : Z
}.

Definition DataFrame : Type := list TransactionRecord.

(** [len(df)] *)
Definition len (df : DataFrame) : Z := Z.of_nat (List.length df).

(** [df.head(n)]: the first [n] rows, or all but the last [-n] rows when
    [n] is negative. *)
Definition head (n : Z) (df : DataFrame) : DataFrame :=
  if 0 <=? n then firstn (Z.to_nat n) df
  else firstn (List.length df - Z.to_nat (- n)) df.

(** [df[col].sum()] of an integer column. *)
Definition sum_col (col : TransactionRecord -> Z) (df : DataFrame) : Z :=
  fold_right (fun r acc => col r + acc) 0 df.

(** [(df[col] == v).sum()] *)
Definition count_eq (col : TransactionRecord -> string) (v : string)
    (df : DataFrame) : Z :=
  len (filter (fun r => String.eqb (col r) v) df).

(** [df.reset_index(drop=True)]: the rows keep their order and are
    labelled 0, 1, 2, ... *)
Fixpoint relabel (from : Z) (df : DataFrame) : DataFrame :=
  match df with
  | [] => []
  | r :: rest =>
      mkRecord from (step r) (type r) (amount r) (nameOrig r)
        (oldbalanceOrg r) (newbalanceOrig r) (nameDest r)
        (oldbalanceDest r) (newbalanceDest r) (isFraud r)
        (isFlaggedFraud r)
      :: relabel (from + 1) rest
  end.

Definition reset_index (df : DataFrame) : DataFrame := relabel 0 df.

(** Rows in descending order of [step]. *)
Definition step_desc (a b : TransactionRecord) : Prop := step b <= step a.

(** An instance of [sort_values("step", ascending=False)]: insertion
    sort from the last row on; rows of equal [step] come out in the
    reverse of their frame order. *)
Fixpoint insert_desc (r : TransactionRecord) (df : DataFrame) : DataFrame :=
  match df with
  | [] => [r]
  | x :: rest =>
      if step x <? step r then r :: x :: rest
      else x :: insert_desc r rest
  end.

Definition insertion_sort_desc (df : DataFrame) : DataFrame :=
  fold_right insert_desc [] df.

End Store.

(* ====================================================================== *)
(** * The signal tools ([src/agent/tools.py]) *)

Module Tools.
Import Py PyNum Store.

(** The risk assessment of [get_origin_history]; [NoTransactionHistory]
    is the early return, the other five are the [if]/[elif] chain. *)
Inductive assessment : Type :=
| NoTransactionHistory
| RiskyAccount
| TrustedAccount
| LimitedHistory
| Caution
| NormalBehavior.

(** What the returned text says: the assessment and the text after
    [Signal Score:]. *)
Record history_report : Type := mkHistory {
  risk : assessment;
  signal : string
}.

Section OriginHistory.

(** [DataFrame.sort_values("step", ascending=False)] *)
Variable sort_values_step_desc : DataFrame -> DataFrame.

(** The frame the module loads once, [df = load_data(sample_frac=0.01)]. *)
Variable df : DataFrame.

Definition origin_mask (origin_id : string) (r : TransactionRecord) : bool :=
  String.eqb (nameOrig r) origin_id.

(** [df[mask].sort_values("step", ascending=False).head(n)] *)
Definition recent_of (origin_id : string) (n : Z) : DataFrame :=
  head n (sort_values_step_desc (filter (origin_mask origin_id) df)).

Definition fraud_count_of (recent : DataFrame) : Z := sum_col isFraud recent.

(** [(fraud_count / len(recent)) * 100 if len(recent) > 0 else 0] *)
Definition fraud_rate_of (recent : DataFrame) : Q :=
  if 0 <? len recent
  then (inject_Z (fraud_count_of recent) / inject_Z (len recent)) * 100
  else 0%Q.

Definition high_risk_txs_of (recent : DataFrame) : Z :=
  count_eq type "TRANSFER" recent + count_eq type "CASH_OUT" recent.

Definition get_origin_history (origin_id : string) (n : Z) : history_report :=
  if negb (existsb (origin_mask origin_id) df) then
    mkHistory NoTransactionHistory "+2"
  else
    let recent := recent_of origin_id n in
    let fraud_rate := fraud_rate_of recent in
    let high_risk_txs := high_risk_txs_of recent in
    if gt fraud_rate 5 then mkHistory RiskyAccount "+2"
    else if 5 <=? high_risk_txs then mkHistory TrustedAccount "-2"
    else if len recent <? 3 then mkHistory LimitedHistory "+1"
    else if gt fraud_rate 0 then mkHistory Caution "+1"
    else mkHistory NormalBehavior "-1".

End OriginHistory.

(** The branch of [check_balance_anomaly] that answered. *)
Inductive balance_finding : Type :=
| LowRiskType
| NoBalanceData
| SevereAnomaly
| ModerateAnomaly
| MildAnomaly
| NoAnomaly.

Record balance_report : Type := mkBalance {
  finding : balance_finding;
  balance_signal : string
}.

Definition low_risk_types : list string := ["PAYMENT"; "CASH_IN"; "DEBIT"].

Section BalanceAnomaly.

(** [a / b] on two doubles with [b > 0]: the quotient as the machine
    rounds it, which is a double again.  [Double.div] is that operation. *)
Variable fdiv : Q -> Q -> Q.

Definition check_balance_anomaly (amount oldbalanceOrg : Q) (tx_type : string)
    : balance_report :=
  if str_in tx_type low_risk_types then mkBalance LowRiskType "0"
  else if le oldbalanceOrg 0 then mkBalance NoBalanceData "0"
  else
    let ratio := fdiv amount oldbalanceOrg in
    if gt ratio 2 then mkBalance SevereAnomaly "+2"
    else if gt ratio 1.5 then mkBalance ModerateAnomaly "+1"
    else if gt ratio 1 then mkBalance MildAnomaly "+0.5"
    else mkBalance NoAnomaly "0".

End BalanceAnomaly.

(** The branch of [compare_to_account_average] that answered. *)
Inductive comparison : Type :=
| NewAccount
| FirstOfType
| UnusualAmount
| TypicalAmount.

Record average_report : Type := mkAverage {
  compared : comparison;
  average_signal : string
}.

(** [sum] of a column of amounts. *)
Definition Qsum (xs : list Q) : Q := fold_right Qplus 0%Q xs.

(** The float32 arithmetic of numpy and pandas that the tool relies on:
    the [amount] column is float32, and so are the statistics computed
    from it.  Each operation answers a number or not-a-number. *)
Record float_ops : Type := mkOps {
  (** [Series.mean()] of a column that is not empty *)
  Series_mean : list Q -> pyfloat;
  (** [Series.std()] of a column of two values or more *)
  Series_std : list Q -> pyfloat;
  (** [x + y] and [x * y] on two numbers *)
  plus : Q -> Q -> pyfloat;
  times : Q -> Q -> pyfloat;
  (** the Python float [amount] as [>] compares it with a float32 *)
  as_operand : Q -> Q
}.

Section AccountAverage.

Variable np : float_ops.

Variable df : DataFrame.

(** [Series.mean()]: not-a-number for an empty column. *)
Definition mean (xs : list Q) : pyfloat :=
  match xs with
  | [] => NaN
  | _ => Series_mean np xs
  end.

(** [Series.std()], the sample standard deviation ([ddof=1]): pandas
    answers not-a-number when the column has no more values than
    [ddof], that is for an empty column and for a single value. *)
Definition std (xs : list Q) : pyfloat :=
  let count := Z.of_nat (List.length xs) in
  if count <=? 1 then NaN else Series_std np xs.

Definition add : pyfloat -> pyfloat -> pyfloat := lift2 (plus np).
Definition mul : pyfloat -> pyfloat -> pyfloat := lift2 (times np).

Definition compare_to_account_average (origin_id : string) (amount : Q)
    (tx_type : string) : average_report :=
  if negb (existsb (origin_mask origin_id) df) then
    mkAverage NewAccount "+1"
  else
    let account_txs := filter (origin_mask origin_id) df in
    let same_type :=
      filter (fun r => String.eqb (type r) tx_type) account_txs in
    if len same_type =? 0 then mkAverage FirstOfType "+1"
    else
      let avg := mean (map Store.amount same_type) in
      let std := std (map Store.amount same_type) in
      let upper_bound := add avg (mul (Fin 2) std) in
      if fgt (Fin (as_operand np amount)) upper_bound
      then mkAverage UnusualAmount "+1"
      else mkAverage TypicalAmount "-1".

End AccountAverage.

End Tools.

(* ====================================================================== *)
(** * The loader ([src/data/loader.py]) *)

Module Loader.
Import PyNum Store Py.

(** What [data/] holds: [PARQUET_PATH.is_file()] and [DATA_PATH.is_file()]
    with the frame each file decodes to. *)
Record data_dir : Type := mkDataDir {
  parquet_file : option DataFrame;
  csv_file : option DataFrame;
  (** [str(BASE_DIR)], [str(DATA_PATH)] and [str(PARQUET_PATH)], which
      depend on where the repository is *)
  str_BASE_DIR : string;
  str_DATA_PATH : string;
  str_PARQUET_PATH : string
}.

(** The file [load_data] reads: the parquet file when there is one, the
    CSV file otherwise. *)
Definition dataset_of (dir : data_dir) : option DataFrame :=
  match parquet_file dir with
  | Some parquet => Some parquet
  | None => csv_file dir
  end.

(** [ValueError("sample_frac must be between 0 and 1")] *)
Definition range_error : exn :=
  ValueError "sample_frac must be between 0 and 1".

(** The error of [load_data] when neither file is there. *)
Definition not_found (dir : data_dir) : exn :=
  FileNotFoundError
    ("❌ Dataset not found!

" ++ "Expected: " ++ str_DATA_PATH dir ++ " (CSV) or "
      ++ str_PARQUET_PATH dir ++ " (Parquet)

" ++ "Download from: https://www.kaggle.com/datasets/ealaxi/paysim1

" ++ "Setup instructions:
" ++ "1. Download paysim.csv from Kaggle
" ++ "2. Place in: " ++ str_BASE_DIR dir ++ "/data/
" ++ "3. (Optional) Convert to parquet for 10x faster loading:
" ++ "   python src/data/loader.py --convert-to-parquet").

Section Sampling.

(** The state of a numpy random generator. *)
Variable rng : Type.

(** [numpy.random.RandomState(seed)] *)
Variable seed_rng : Z -> rng.

(** The rows [DataFrame.sample(frac=...)] draws with a generator, in
    the order drawn, and the generator after the draw. *)
Variable draw : rng -> Q -> DataFrame -> DataFrame * rng.

(** [df.sample(frac=frac, random_state=...)]: an integer
    [random_state] seeds a generator of its own; without one the
    process-wide generator is used and advanced. *)
Definition sample (frac : Q) (random_state : option Z) (df : DataFrame)
    (global : rng) : DataFrame * rng :=
  match random_state with
  | Some seed => (fst (draw (seed_rng seed) frac df), global)
  | None => draw global frac df
  end.

(** [_load_parquet], with the frame [pd.read_parquet(PARQUET_PATH)]
    gives. *)
Definition _load_parquet (parquet : DataFrame) (sample_frac : option Q)
    (global : rng) : result DataFrame * rng :=
  let df := parquet in
  match sample_frac with
  | Some f =>
      if negb (gt f 0 && le f 1) then (Raise range_error, global)
      else
        let '(df, global) := sample f (Some 42) df global in
        (Return (reset_index df), global)
  | None => (Return (reset_index df), global)
  end.

(** [_load_csv], with the frame [pd.read_csv(DATA_PATH, dtype=DTYPES)]
    gives. *)
Definition _load_csv (csv : DataFrame) (sample_frac : option Q)
    (global : rng) : result DataFrame * rng :=
  let df := csv in
  match sample_frac with
  | Some f =>
      if negb (gt f 0 && le f 1) then (Raise range_error, global)
      else
        let '(df, global) := sample f (Some 42) df global in
        (Return (reset_index df), global)
  | None => (Return (reset_index df), global)
  end.

Definition load_data (dir : data_dir) (sample_frac : option Q)
    (global : rng) : result DataFrame * rng :=
  match parquet_file dir with
  | Some parquet => _load_parquet parquet sample_frac global
  | None =>
      match csv_file dir with
      | Some csv => _load_csv csv sample_frac global
      | None => (Raise (not_found dir), global)
      end
  end.

End Sampling.

End Loader.

(* ====================================================================== *)
(** * The prompt ([src/prompts.py]) *)

Module Prompts.
Import Py.

Definition PRODUCTION_PROMPT : string :=
"You are an expert fraud detection analyst for PaySim mobile money transactions.

Your objective: Analyze transactions using a structured, weighted decision framework.

█ STEP 1: TRANSACTION TYPE GATING (Primary Filter)
━━━━━━━━━━━━━━━━━━━━━━━━━━━━━━━━━━━━━━━━━━━━━━━━

First, immediately check the transaction type:

✓ PAYMENT transactions  → ALWAYS LEGITIMATE (0% fraud rate in PaySim)
✓ CASH_IN transactions  → ALWAYS LEGITIMATE (0% fraud rate in PaySim)
✓ DEBIT transactions    → ALWAYS LEGITIMATE (0% fraud rate in PaySim)

⚠ TRANSFER transactions → Proceed to STEP 2 (4.4% fraud rate)
⚠ CASH_OUT transactions → Proceed to STEP 2 (4.2% fraud rate)

ACTION: If type is PAYMENT/CASH_IN/DEBIT, immediately return LEGITIMATE with 5% fraud probability.
        Do not analyze further - these are statistically never fraud in PaySim.

█ STEP 2: WEIGHTED MULTI-SIGNAL SCORING (For TRANSFER/CASH_OUT only)
━━━━━━━━━━━━━━━━━━━━━━━━━━━━━━━━━━━━━━━━━━━━━━━━━━━━━━━━━━━━━━━━

For high-risk transaction types, score 4 signals:

SIGNAL A: ACCOUNT BEHAVIOR (Weight: 40% - STRONGEST SIGNAL)
──────────────────────────────────────────────────────────
Use get_origin_history() tool to check sender's past transactions.

Scoring:
  ├─ NO HISTORY found (new account): +2 points
  ├─ SOME HISTORY (1-5 prior similar): +1 point
  ├─ FREQUENT HISTORY (5+ prior TRANSFER/CASH_OUT): -2 points
  ├─ FRAUD IN HISTORY (>5% fraud rate): +2 points
  └─ NORMAL MIXED BEHAVIOR: 0 points

Why: Behavioral patterns are strongest fraud indicator.
     Legitimate accounts repeat similar transactions.
     New/unusual accounts are higher risk.


SIGNAL B: BALANCE ANOMALY (Weight: 40% - SECONDARY SIGNAL)
──────────────────────────────────────────────────────────
Use check_balance_anomaly() tool to analyze balance vs amount.

CRITICAL: Balance anomaly appears in 15% of LEGITIMATE transactions.
          It is a WEAK signal alone and should NOT drive decision by itself.

Calculate ratio = amount / oldbalanceOrg

Scoring:
  ├─ ratio > 2.0: +2 points (severe anomaly)
  ├─ 1.5 < ratio ≤ 2.0: +1 point (moderate)
  ├─ 1.0 < ratio ≤ 1.5: +0.5 points (mild)
  └─ ratio ≤ 1.0: 0 points (safe)

Why: Many legitimate accounts use credit/overdraft features.
     Mobile money systems allow exceeding balance.
     But extreme ratios (>2x) are unusual.


SIGNAL C: DESTINATION TYPE (Weight: 10%)
────────────────────────────────────────
Use is_merchant_account() tool to check destination account.

Check if nameDest starts with 'M' (merchant indicator).

Scoring:
  ├─ Merchant account (M prefix): -1 point (safer)
  └─ Regular user account: 0 points (neutral)

Why: Merchants are payment processors, less likely fraud targets.
     Regular accounts can be either fraud or legitimate.


SIGNAL D: AMOUNT CONTEXT (Weight: 10%)
──────────────────────────────────────
Simple threshold check.

Check if amount is exceptionally large.

Scoring:
  ├─ amount > 300,000: +0.5 points (unusual)
  └─ amount ≤ 300,000: 0 points

Why: Large amounts appear in both fraud and legitimate.
     WEAK signal - use only for reinforcement.
     Never decide based on amount alone.


█ STEP 3: CALCULATE TOTAL SCORE
━━━━━━━━━━━━━━━━━━━━━━━━━━━━━━━

Total Score = Signal_A + Signal_B + Signal_C + Signal_D
Possible range: -5 to +6.5 points


█ STEP 4: MAKE DECISION BASED ON SCORE
━━━━━━━━━━━━━━━━━━━━━━━━━━━━━━━━━━━━━

Score ≤ -1.0:
  Fraud Probability: 5%
  Decision: LEGITIMATE

Score -1.0 to 0.0:
  Fraud Probability: 10%
  Decision: LEGITIMATE

Score 0.0 to +1.0:
  Fraud Probability: 20%
  Decision: LEGITIMATE (CONSERVATIVE DEFAULT)

Score +1.0 to +2.0:
  Fraud Probability: 50%
  Decision: SUSPICIOUS

Score > +2.0:
  Fraud Probability: 75%
  Decision: FRAUD


█ OUTPUT FORMAT (STRICT)
━━━━━━━━━━━━━━━━━━━━━━

Agent Analysis (Step by Step)

1. [Type check and initial gating]
2. [Signal A - Account behavior + score]
3. [Signal B - Balance anomaly + score]
4. [Signal C - Destination type + score]
5. [Signal D - Amount context + score]

FRAUD PROBABILITY: XX%
REASON: [2-3 sentence summary]
FINAL DECISION: [FRAUD / SUSPICIOUS / LEGITIMATE]


█ CORE PRINCIPLES (MUST FOLLOW)
━━━━━━━━━━━━━━━━━━━━━━━━━━━━━━

1. ✓ NEVER mark FRAUD based on balance anomaly ALONE
2. ✓ NEVER mark FRAUD based on AMOUNT ALONE
3. ✓ NEVER mark FRAUD based on TRANSFER/CASH_OUT type ALONE
4. ✓ ALWAYS default to LEGITIMATE when uncertain (score 0-1)
5. ✓ ALWAYS use tools to get ACTUAL data
6. ✓ ALWAYS explain your reasoning
7. ✓ Require MULTIPLE signals for FRAUD decision
".

Definition modes : list string :=
  ["production"; "balanced"; "conservative"; "aggressive"].

Definition get_system_prompt (mode : string) : result string :=
  let mode := lower mode in
  if str_in mode modes then Return PRODUCTION_PROMPT
  else
    Raise (ValueError
      ("Unknown mode: " ++ mode ++ "
Available modes: production, balanced, conservative, aggressive
(All modes currently use the same production prompt)")).

End Prompts.

(* ====================================================================== *)
(** * The orchestrator ([src/agent/agent.py]) *)

Module Agent.
Import Py Prompts.

Inductive message : Type :=
| SystemMessage (content : string)
| HumanMessage (content : string)
| AIMessage (content : string)
(** an object without a [content] attribute, with its [str(...)] *)
| OtherMessage (repr : string).

(** One call of a tool of [tools] by the agent, with its arguments. *)
Record tool_call : Type := mkToolCall {
  tool_name : string;
  tool_args : string
}.

(** The end of [agent_executor.invoke(...)]: it raises, or it returns a
    result; [Result None] is a result that is empty or has no
    ["messages"] entry, [Result (Some ms)] one whose ["messages"] is
    [ms]. *)
Inductive invoke_end : Type :=
| Fails (e : exn)
| Result (messages : option (list message)).

(** One run of the agent: the tools it called, in order, and how it
    ended. *)
Record invocation : Type := mkInvocation {
  calls : list tool_call;
  ending : invoke_end
}.

(** The compiled ReAct graph: the reasoning oracle. *)
Definition agent : Type := list message -> invocation.

Inductive event : Type :=
| AgentCreated
| AgentInvoked (messages : list message)
| ToolCalled (call : tool_call).

(** The process state the orchestrator touches: the module-level
    [_agent] and, for the properties below, the trace of what was done. *)
Record world : Type := mkWorld {
  _agent : option agent;
  trace : list event
}.

Definition log (evs : list event) (w : world) : world :=
  mkWorld (_agent w) (trace w ++ evs).

Section Orchestrator.

(** What [create_react_agent(model=llm, tools=tools)] builds. *)
Variable create_agent : agent.

(** A value of the transaction dict and the text [f"{v}"] gives it. *)
Variable value : Type.
Variable py_str : value -> string.

(** [traceback.format_exc()] while [e] is being handled. *)
Variable format_exc : exn -> string.

(** A dict, as its items in insertion order. *)
Definition dict : Type := list (string * value).

Definition get_agent (w : world) : agent * world :=
  match _agent w with
  | Some a => (a, w)
  | None =>
      (create_agent, log [AgentCreated] (mkWorld (Some create_agent) (trace w)))
  end.

(** ["\n".join(f"• {k}: {v}" for k, v in transaction.items())] *)
Definition tx_str (transaction : dict) : string :=
  join "
" (map (fun kv => "• " ++ fst kv ++ ": " ++ py_str (snd kv)) transaction).

Definition analysis_task (transaction : dict) : string :=
  "Analyze this transaction using the 4-signal weighted framework:

TRANSACTION DATA:
" ++ tx_str transaction ++ "

ANALYSIS STEPS:
1. Check transaction type (RULE 1)
2. If TRANSFER/CASH_OUT, use tools to get:
   - Account history (get_origin_history)
   - Balance anomaly assessment (check_balance_anomaly)
   - Destination type check (is_merchant_account)
3. Calculate 4-signal score
4. Apply decision threshold
5. Provide fraud probability and final decision

OUTPUT EXACTLY IN THIS FORMAT:

Agent Analysis (Step by Step)

1. [Type check and initial assessment]
2. [Signal A - Account behavior score and reasoning]
3. [Signal B - Balance anomaly score and reasoning]
4. [Signal C - Destination type score and reasoning]
5. [Signal D - Amount context score and reasoning]
6. [Total score calculation and threshold explanation]

FRAUD PROBABILITY: XX%
REASON: [2-3 sentence summary of key signals]
FINAL DECISION: [FRAUD / SUSPICIOUS / LEGITIMATE]".

(** The two messages the agent is sent. *)
Definition messages_for (transaction : dict) : list message :=
  [SystemMessage PRODUCTION_PROMPT; HumanMessage (analysis_task transaction)].

(** ["\n".join(f"  {k}: {v}" for k, v in transaction.items())] *)
Definition tx_summary (transaction : dict) : string :=
  join "
" (map (fun kv => "  " ++ fst kv ++ ": " ++ py_str (snd kv)) transaction).

Definition troubleshooting : string :=
  "Troubleshooting:
1. Check OPENAI_API_KEY in .env
2. Verify paysim.csv in data/ folder
3. Ensure all dependencies installed".

(** The text the [except Exception] handler returns. *)
Definition agent_error (e : exn) (transaction : dict) : string :=
  "❌ Agent Error: " ++ exn_str e ++ "

" ++ "Transaction:
" ++ tx_summary transaction ++ "

" ++ "Traceback:
" ++ format_exc e ++ "

" ++ troubleshooting.

(** [result["messages"][-1]] *)
Definition last_message (ms : list message) : result message :=
  match rev ms with
  | [] => Raise (IndexError "list index out of range")
  | m :: _ => Return m
  end.

(** [last_message.content.strip() if hasattr(last_message, 'content')
    else str(last_message)] *)
Definition content_of (m : message) : string :=
  match m with
  | SystemMessage c | HumanMessage c | AIMessage c => strip c
  | OtherMessage repr => repr
  end.

(** The body of the [try], after [invoke] has ended with [e]. *)
Definition extract_response (e : invoke_end) : result string :=
  match e with
  | Fails ex => Raise ex
  | Result (Some ms) =>
      match last_message ms with
      | Raise ex => Raise ex
      | Return m =>
          let content := content_of m in
          Return (if truthy content then content
                  else "No response from agent.")
      end
  | Result None => Return "Error: No response from agent."
  end.

Definition run_fraud_analysis (transaction : dict) (mode : string)
    (w : world) : result string * world :=
  let mode := lower mode in
  if negb (str_in mode modes) then
    (Raise (ValueError
       ("Invalid mode: " ++ mode
        ++ ". Use: production, balanced, conservative, or aggressive. "
        ++ "(All modes currently use the production prompt)")), w)
  else
    let '(agent_executor, w) := get_agent w in
    match get_system_prompt "production" with
    | Raise e => (Raise e, w)
    | Return system_prompt =>
        let messages :=
          [SystemMessage system_prompt;
           HumanMessage (analysis_task transaction)] in
        let run := agent_executor messages in
        let w := log (AgentInvoked messages :: map ToolCalled (calls run)) w in
        match extract_response (ending run) with
        | Return text => (Return text, w)
        | Raise e => (Return (agent_error e transaction), w)
        end
    end.

(** [transaction.get("type")], as the text the task shows for it. *)
Fixpoint tx_type (transaction : dict) : option string :=
  match transaction with
  | [] => None
  | (k, v) :: rest =>
      if String.eqb k "type" then Some (py_str v) else tx_type rest
  end.

End Orchestrator.

(** The tool calls recorded in a trace. *)
Fixpoint tools_called (evs : list event) : list tool_call :=
  match evs with
  | [] => []
  | ToolCalled c :: rest => c :: tools_called rest
  | _ :: rest => tools_called rest
  end.

(** The agent invocations recorded in a trace. *)
Fixpoint invocations (evs : list event) : list (list message) :=
  match evs with
  | [] => []
  | AgentInvoked ms :: rest => ms :: invocations rest
  | _ :: rest => invocations rest
  end.

(** The two trailing lines a consumer reads the verdict from. *)
Definition verdict_marker : string := "FINAL DECISION:".

Definition states_verdict (decision probability text : string) : bool :=
  contains ("FRAUD PROBABILITY: " ++ probability ++ "%") text
  && contains (verdict_marker ++ " " ++ decision) text.

(** The action line of STEP 1 of the production prompt. *)
Definition gate_instruction : string :=
  "ACTION: If type is PAYMENT/CASH_IN/DEBIT, immediately return LEGITIMATE with 5% fraud probability.".

(** A run of the agent that follows the gate: no tool is called and the
    last message states LEGITIMATE with 5%. *)
Definition follows_gate (run : invocation) : Prop :=
  calls run = [] /\
  exists ms m,
    ending run = Result (Some (ms ++ [m])%list) /\
    truthy (content_of m) = true /\
    states_verdict "LEGITIMATE" "5" (content_of m) = true.

(** [s] is [w] up to the case of its letters. *)
Fixpoint case_variant (s w : string) : Prop :=
  match s, w with
  | EmptyString, EmptyString => True
  | String c s', String d w' =>
      (c = d \/ c = upper_ascii d) /\ case_variant s' w'
  | _, _ => False
  end.

End Agent.

(* ====================================================================== *)
(** * Tool A as the specification words it *)

Module ToolASpec.
Import Py PyNum Store Tools.

(** Section 4.2 of the specification, over the fetched records: [total]
    is their count, [fraudCount] the count with is-fraud true,
    [fraudRate] the quotient (0 when there is none), [highRiskCount] the
    count of TRANSFER and CASH_OUT. *)
Definition total (fetched : DataFrame) : Z := len fetched.

Definition fraudCount (fetched : DataFrame) : Z :=
  len (filter (fun r => negb (isFraud r =? 0)) fetched).

Definition fraudRate (fetched : DataFrame) : Q :=
  if total fetched =? 0 then 0%Q
  else (inject_Z (fraudCount fetched) / inject_Z (total fetched))%Q.

Definition highRiskCount (fetched : DataFrame) : Z :=
  len (filter (fun r => str_in (type r) ["TRANSFER"; "CASH_OUT"]) fetched).

(** The condition of each branch, taken alone. *)
Definition holds (b : assessment) (fetched : DataFrame) : bool :=
  match b with
  | NoTransactionHistory => total fetched =? 0
  | RiskyAccount => gt (fraudRate fetched) 0.05
  | TrustedAccount => 5 <=? highRiskCount fetched
  | LimitedHistory => total fetched <? 3
  | Caution => gt (fraudRate fetched) 0
  | NormalBehavior => true
  end.

(** The place of a branch in the documented order. *)
Definition rank (b : assessment) : nat :=
  match b with
  | NoTransactionHistory => 0
  | RiskyAccount => 1
  | TrustedAccount => 2
  | LimitedHistory => 3
  | Caution => 4
  | NormalBehavior => 5
  end.

(** The documented score of each branch. *)
Definition score (b : assessment) : string :=
  match b with
  | NoTransactionHistory => "+2"
  | RiskyAccount => "+2"
  | TrustedAccount => "-2"
  | LimitedHistory => "+1"
  | Caution => "+1"
  | NormalBehavior => "-1"
  end.

(** A branch fires when its condition holds and the condition of no
    branch before it does: the first matching branch wins. *)
Definition fires (b : assessment) (fetched : DataFrame) : Prop :=
  holds b fetched = true /\
  forall b', (rank b' < rank b)%nat -> holds b' fetched = false.

(** The first branch, in the documented order, whose condition holds. *)
Definition first_match (fetched : DataFrame) : assessment :=
  if holds NoTransactionHistory fetched then NoTransactionHistory
  else if holds RiskyAccount fetched then RiskyAccount
  else if holds TrustedAccount fetched then TrustedAccount
  else if holds LimitedHistory fetched then LimitedHistory
  else if holds Caution fetched then Caution
  else NormalBehavior.

(** A store whose is-fraud column is the 0/1 flag of the data model. *)
Definition flags_are_boolean (df : DataFrame) : Prop :=
  Forall (fun r => isFraud r = 0 \/ isFraud r = 1) df.

End ToolASpec.

(* ====================================================================== *)
(** * Sample data *)

Module Samples.
Import Store.

Definition row (i st : Z) (ty : string) (amt : Q) (orig : string)
    (fraud : Z) : TransactionRecord :=
  mkRecord i st ty amt orig 0 0 "C2" 0 0 fraud 0.

(** A small store: account C1 has four rows, one of them a fraud; account
    C9 has a single TRANSFER. *)
Definition small_df : DataFrame :=
  [ row 0 1 "PAYMENT" 10 "C1" 0;
    row 1 5 "TRANSFER" 200 "C1" 1;
    row 2 3 "CASH_OUT" 30 "C1" 0;
    row 3 2 "TRANSFER" 1000 "C9" 0;
    row 4 4 "DEBIT" 40 "C1" 0 ].

(** Account C5: five TRANSFER/CASH_OUT rows, none a fraud. *)
Definition frequent_df : DataFrame :=
  [ row 0 1 "TRANSFER" 10 "C5" 0;
    row 1 2 "CASH_OUT" 20 "C5" 0;
    row 2 3 "TRANSFER" 30 "C5" 0;
    row 3 4 "CASH_OUT" 40 "C5" 0;
    row 4 5 "TRANSFER" 50 "C5" 0 ].

(** Account C3: three PAYMENT rows, none a fraud. *)
Definition clean_df : DataFrame :=
  [ row 0 1 "PAYMENT" 10 "C3" 0;
    row 1 2 "PAYMENT" 20 "C3" 0;
    row 2 3 "PAYMENT" 30 "C3" 0 ].

(** Account C7: twenty PAYMENT rows, the oldest of them a fraud, so a
    fraud rate of exactly 5% over a window of twenty. *)
Definition payments (orig : string) (k : nat) : DataFrame :=
  map (fun i => row (Z.of_nat i) (Z.of_nat i + 2) "PAYMENT" 10 orig 0) (seq 0 k).

Definition five_percent_df : DataFrame :=
  row 100 1 "PAYMENT" 10 "C7" 1 :: payments "C7" 19.

(** An integer square root, standing for [numpy.sqrt]. *)
Definition isqrt (q : Q) : Q := inject_Z (Z.sqrt (Qfloor q)).

(** An arithmetic to evaluate [compare_to_account_average] with: sums,
    products and quotients without rounding, [isqrt] for the square
    root. *)
Definition exact_mean (xs : list Q) : PyNum.pyfloat :=
  PyNum.Fin (Tools.Qsum xs / inject_Z (Z.of_nat (List.length xs))).

Definition exact_std (xs : list Q) : PyNum.pyfloat :=
  let count := Z.of_nat (List.length xs) in
  let avg := (Tools.Qsum xs / inject_Z count)%Q in
  let sqr := Tools.Qsum (map (fun x => (x - avg) * (x - avg))%Q xs) in
  PyNum.Fin (isqrt (sqr / inject_Z (count - 1))).

Definition exact_ops : Tools.float_ops :=
  Tools.mkOps exact_mean exact_std
    (fun a b => PyNum.Fin (a + b)) (fun a b => PyNum.Fin (a * b))
    (fun a => a).

(** A small generator: the state is a counter, a draw starts at the row
    the counter points to and takes the first [frac * len] rows from
    there, wrapping around. *)
Definition rotate (k : nat) (df : DataFrame) : DataFrame :=
  (skipn (Nat.modulo k (List.length df)) df
     ++ firstn (Nat.modulo k (List.length df)) df)%list.

Definition counter_draw (g : Z) (frac : Q) (df : DataFrame) : DataFrame * Z :=
  (firstn (Z.to_nat (Qfloor (frac * inject_Z (len df)))) (rotate (Z.to_nat g) df),
   g + 1).

Definition counter_seed (seed : Z) : Z := seed.

Definition both_files : Loader.data_dir :=
  Loader.mkDataDir (Some small_df) (Some clean_df)
    "/srv/fraud" "/srv/fraud/data/paysim.csv" "/srv/fraud/data/paysim.parquet".

(** The first row of PaySim as a transaction dict, values as shown. *)
Definition payment_tx : list (string * string) :=
  [ ("step", "1"); ("type", "PAYMENT"); ("amount", "9839.64");
    ("nameOrig", "C1231006815"); ("oldbalanceOrg", "170136.0");
    ("newbalanceOrig", "160296.36"); ("nameDest", "M1979787155");
    ("oldbalanceDest", "0.0"); ("newbalanceDest", "0.0");
    ("isFraud", "0"); ("isFlaggedFraud", "0") ].

Definition show (v : string) : string := v.

Definition short_traceback (e : Py.exn) : string :=
  "Traceback (most recent call last): " ++ Py.exn_class e.

Definition fresh : Agent.world := Agent.mkWorld None [].

(** An oracle that cannot be reached. *)
Definition unreachable_agent : Agent.agent :=
  fun _ => Agent.mkInvocation []
             (Agent.Fails (Py.mkExn "APIConnectionError" "Connection error.")).

(** An oracle that overlooks the gate: it looks the sender up and
    answers FRAUD whatever the type. *)
Definition eager_agent : Agent.agent :=
  fun ms => Agent.mkInvocation
              [Agent.mkToolCall "get_origin_history" "C1231006815"]
              (Agent.Result (Some (ms ++ [Agent.AIMessage
"FRAUD PROBABILITY: 75%
REASON: New account.
FINAL DECISION: FRAUD"])%list)).

(** The answer STEP 1 of the prompt asks for. *)
Definition gate_reply : string :=
"Agent Analysis (Step by Step)

1. Low-risk transaction type: no further analysis.

FRAUD PROBABILITY: 5%
REASON: PAYMENT, CASH_IN and DEBIT are never fraud in PaySim.
FINAL DECISION: LEGITIMATE
".

(** An oracle that follows STEP 1 of the prompt. *)
Definition gating_agent : Agent.agent :=
  fun ms =>
    match ms with
    | [Agent.SystemMessage _; Agent.HumanMessage task] =>
        if (Py.contains "• type: PAYMENT" task
            || Py.contains "• type: CASH_IN" task
            || Py.contains "• type: DEBIT" task)%bool
        then
          Agent.mkInvocation []
            (Agent.Result (Some (ms ++ [Agent.AIMessage gate_reply])%list))
        else
          Agent.mkInvocation
            [Agent.mkToolCall "get_origin_history" "";
             Agent.mkToolCall "check_balance_anomaly" "";
             Agent.mkToolCall "is_merchant_account" ""]
            (Agent.Result (Some (ms ++ [Agent.AIMessage
"FRAUD PROBABILITY: 20%
REASON: Scored.
FINAL DECISION: LEGITIMATE"])%list))
    | _ => Agent.mkInvocation [] (Agent.Result None)
    end.

End Samples.

(* ====================================================================== *)
(** * The other tools of [src/agent/tools.py] *)

Module MoreTools.
Import Py PyNum Store Tools.

(** The two answers of [is_merchant_account]. *)
Inductive account_kind : Type :=
| MerchantAccount
| RegularAccount.

Record merchant_report : Type := mkMerchant {
  kind : account_kind;
  merchant_signal : string
}.

(** [s.startswith(p)] *)
Definition startswith (s p : string) : bool := prefix p s.

Definition is_merchant_account (dest_id : string) : merchant_report :=
  if startswith dest_id "M" then mkMerchant MerchantAccount "-1"
  else mkMerchant RegularAccount "0".

(** What [get_account_statistics] reports: nothing for an account without
    rows, otherwise the lines of the text that are numbers of the frame
    (the average amount and the per-type counts are left out) and whether
    the risk level is the high one. *)
Inductive account_statistics : Type :=
| NoStatistics
| Statistics (total fraud_count : Z) (fraud_rate : Q) (high_risk : bool).

Definition get_account_statistics (df : DataFrame) (account_id : string)
    : account_statistics :=
  if negb (existsb (origin_mask account_id) df) then NoStatistics
  else
    let txs := filter (origin_mask account_id) df in
    let fraud_count := sum_col isFraud txs in
    let fraud_rate :=
      if 0 <? len txs
      then (inject_Z fraud_count / inject_Z (len txs) * 100)%Q
      else 0%Q in
    Statistics (len txs) fraud_count fraud_rate (gt fraud_rate 5).

(** The number a [Signal Score:] text of the tools stands for. *)
Definition points (signal : string) : Q :=
  if String.eqb signal "+2" then 2
  else if String.eqb signal "-2" then -2
  else if String.eqb signal "+1" then 1
  else if String.eqb signal "-1" then -1
  else if String.eqb signal "+0.5" then 0.5
  else 0.

End MoreTools.

(* ====================================================================== *)
(** * The other functions of [src/data/loader.py] *)

Module MoreLoader.
Import Py PyNum Store Loader.

(** The columns of a row: the row without its index label. *)
Definition columns (r : TransactionRecord) : TransactionRecord :=
  mkRecord 0 (step r) (type r) (amount r) (nameOrig r) (oldbalanceOrg r)
    (newbalanceOrig r) (nameDest r) (oldbalanceDest r) (newbalanceDest r)
    (isFraud r) (isFlaggedFraud r).

(** [Series.unique().tolist()]: the values in the order they first
    appear. *)
Fixpoint unique_from (seen xs : list string) : list string :=
  match xs with
  | [] => []
  | x :: rest =>
      if str_in x seen then unique_from seen rest
      else x :: unique_from (x :: seen) rest
  end.

Definition unique (xs : list string) : list string := unique_from [] xs.

(** The dict [get_data_info] returns: the statistics (the column names
    and the memory usage are left out) or [{"error": str(e)}]. *)
Inductive data_info : Type :=
| Info (total_rows fraud_count : Z) (fraud_rate : Q)
       (transaction_types : list string)
| InfoError (error : string).

Section Files.

(** [str(DATA_PATH)], which depends on where the repository is. *)
Variable DATA_PATH : string.

(** [pd.read_csv(DATA_PATH, dtype=DTYPES)] *)
Definition read_csv (dir : data_dir) : result DataFrame :=
  match csv_file dir with
  | Some csv => Return csv
  | None =>
      Raise (FileNotFoundError
        ("[Errno 2] No such file or directory: '" ++ DATA_PATH ++ "'"))
  end.

Definition get_data_info (dir : data_dir) (use_parquet : bool) : data_info :=
  let read :=
    match (if use_parquet then parquet_file dir else None) with
    | Some parquet => Return parquet
    | None => read_csv dir
    end in
  match read with
  | Raise e => InfoError (exn_str e)
  | Return df =>
      let fraud_count := sum_col isFraud df in
      let total := len df in
      Info total fraud_count
        (if 0 <? total
         then (inject_Z fraud_count / inject_Z total * 100)%Q
         else 0%Q)
        (unique (map type df))
  end.

End Files.

(** [convert_csv_to_parquet()] with its default paths, as the effect on
    [data/]: nothing without the CSV file; otherwise the parquet file is
    written from the CSV frame without its index ([index=False]), so it
    decodes to that frame labelled 0, 1, 2, ... *)
Definition convert_csv_to_parquet (dir : data_dir) : data_dir :=
  match csv_file dir with
  | None => dir
  | Some df =>
      mkDataDir (Some (reset_index df)) (csv_file dir)
        (str_BASE_DIR dir) (str_DATA_PATH dir) (str_PARQUET_PATH dir)
  end.

Section Sampling.

Variable rng : Type.
Variable seed_rng : Z -> rng.
Variable draw : rng -> Q -> DataFrame -> DataFrame * rng.

(** [load_data_by_type] and [load_fraud_only] load everything, filter,
    and sample what is left; they make no check of the fraction of their
    own, and what pandas itself refuses (a fraction below 0 or above 1)
    is not modelled. *)
Definition load_data_by_type (dir : data_dir) (transaction_type : string)
    (sample_frac : option Q) (global : rng) : result DataFrame * rng :=
  match load_data rng seed_rng draw dir None global with
  | (Raise e, global) => (Raise e, global)
  | (Return df, global) =>
      let df := filter (fun r => String.eqb (type r) transaction_type) df in
      match sample_frac with
      | Some f =>
          let '(df, global) := sample rng seed_rng draw f (Some 42) df global in
          (Return (reset_index df), global)
      | None => (Return (reset_index df), global)
      end
  end.

Definition load_fraud_only (dir : data_dir) (sample_frac : option Q)
    (global : rng) : result DataFrame * rng :=
  match load_data rng seed_rng draw dir None global with
  | (Raise e, global) => (Raise e, global)
  | (Return df, global) =>
      let df := filter (fun r => isFraud r =? 1) df in
      match sample_frac with
      | Some f =>
          let '(df, global) := sample rng seed_rng draw f (Some 42) df global in
          (Return (reset_index df), global)
      | None => (Return (reset_index df), global)
      end
  end.

End Sampling.

End MoreLoader.

(* ====================================================================== *)
(** * The prompt table of [src/prompts.py] *)

Module MorePrompts.
Import Py Prompts.

(** The dict [PROMPTS], as its items. *)
Definition PROMPTS : list (string * string) :=
  [ ("production", PRODUCTION_PROMPT);
    ("balanced", PRODUCTION_PROMPT);
    ("conservative", PRODUCTION_PROMPT);
    ("aggressive", PRODUCTION_PROMPT) ].

(** [d.get(key)] *)
Fixpoint dict_get (d : list (string * string)) (key : string) : option string :=
  match d with
  | [] => None
  | (k, v) :: rest => if String.eqb k key then Some v else dict_get rest key
  end.

End MorePrompts.

(* ====================================================================== *)
(** * Batch analysis ([analyze_batch] of [src/agent/agent.py]) *)

Module Batch.
Import Py Prompts Agent.

Section Orchestrator.

Variable create_agent : agent.
Variable value : Type.
Variable py_str : value -> string.
Variable format_exc : exn -> string.

(** One entry of the list [analyze_batch] returns. *)
Record batch_item : Type := mkItem {
  transaction : dict value;
  analysis : string;
  index : Z
}.

(** The loop of [analyze_batch] from the transaction numbered [i] on:
    an exception of [run_fraud_analysis] ends it. *)
Fixpoint analyze_from (i : Z) (transactions : list (dict value))
    (mode : string) (w : world) : result (list batch_item) * world :=
  match transactions with
  | [] => (Return [], w)
  | tx :: rest =>
      match run_fraud_analysis create_agent value py_str format_exc tx mode w with
      | (Raise e, w) => (Raise e, w)
      | (Return analysis, w) =>
          match analyze_from (i + 1) rest mode w with
          | (Raise e, w) => (Raise e, w)
          | (Return results, w) => (Return (mkItem tx analysis i :: results), w)
          end
      end
  end.

Definition analyze_batch (transactions : list (dict value)) (mode : string)
    (w : world) : result (list batch_item) * world :=
  analyze_from 0 transactions mode w.

End Orchestrator.

(** The number of times the agent was built in a trace. *)
Fixpoint creations (evs : list event) : nat :=
  match evs with
  | [] => 0
  | AgentCreated :: rest => S (creations rest)
  | _ :: rest => creations rest
  end.

(** A text of ASCII white space only. *)
Fixpoint all_space (s : string) : bool :=
  match s with
  | EmptyString => true
  | String c rest => is_space c && all_space rest
  end.

End Batch.

(* ====================================================================== *)
(** * The page ([src/app.py]) *)

Module App.
Import Py PyNum Store Loader.

(** [max(a, b)] *)
Definition max (a b : Q) : Q := if gt b a then b else a.

Section Sampling.

Variable rng : Type.
Variable seed_rng : Z -> rng.
Variable draw : rng -> Q -> DataFrame -> DataFrame * rng.

(** [get_data(sample)], the slider's percentage; the cache of
    [st.cache_resource] is not modelled. *)
Definition get_data (dir : data_dir) (sample : Z) (global : rng)
    : result DataFrame * rng :=
  load_data rng seed_rng draw dir (Some (inject_Z sample / 100)%Q) global.

End Sampling.

(** The four quick stats of a row [tx = df.iloc[idx].to_dict()]: the
    ratio shown, and whether the page says merchant, high type risk and
    fraud. *)
Definition quick_ratio (tx : TransactionRecord) : Q :=
  (amount tx / max (oldbalanceOrg tx) 1)%Q.



Definition quick_truth_fraud (tx : TransactionRecord) : bool :=
  negb (isFraud tx =? 0).

End App.

(* ====================================================================== *)
(** * More sample data *)

Module MoreSamples.
Import Store.


(** Account C7 with three clean PAYMENT rows and an older fraud. *)
Definition old_fraud_df : DataFrame :=
  Samples.row 100 1 "PAYMENT" 10 "C7" 1 :: Samples.payments "C7" 3.

(** A second transaction, a CASH_OUT. *)
Definition cash_out_tx : list (string * string) :=
  [ ("step", "100"); ("type", "CASH_OUT"); ("amount", "297988.0");
    ("nameOrig", "C1000000001"); ("oldbalanceOrg", "30030.0");
    ("nameDest", "C1792659267") ].

End MoreSamples.

(* ====================================================================== *)
(** * Properties *)

(** ** Comparisons *)

Module PyNumFacts.
Import PyNum.

Lemma gt_true (x y : Q) : gt x y = true <-> (y < x)%Q.
Proof.
  unfold gt. rewrite negb_true_iff, <- not_true_iff_false, Qle_bool_iff.
  split; [apply Qnot_le_lt | apply Qlt_not_le].
Qed.

Lemma gt_false (x y : Q) : gt x y = false <-> (x <= y)%Q.
Proof.
  unfold gt. rewrite negb_false_iff. apply Qle_bool_iff.
Qed.

Lemma le_true (x y : Q) : le x y = true <-> (x <= y)%Q.
Proof. apply Qle_bool_iff. Qed.

Lemma le_false (x y : Q) : le x y = false <-> (y < x)%Q.
Proof.
  unfold le. rewrite <- not_true_iff_false, Qle_bool_iff.
  split; [apply Qnot_le_lt | apply Qlt_not_le].
Qed.

(** No float is greater than not-a-number. *)
Lemma fgt_nan (x : pyfloat) : fgt x NaN = false.
Proof. destruct x; reflexivity. Qed.

Lemma lift2_nan_r (op : Q -> Q -> pyfloat) (x : pyfloat) :
  lift2 op x NaN = NaN.
Proof. destruct x; reflexivity. Qed.

Lemma lift2_nan_l (op : Q -> Q -> pyfloat) (y : pyfloat) :
  lift2 op NaN y = NaN.
Proof. reflexivity. Qed.

End PyNumFacts.

(** ** Strings *)

Module StringFacts.
Import Py.

Lemma str_in_spec (x : string) (xs : list string) :
  str_in x xs = true <-> In x xs.
Proof.
  unfold str_in. rewrite existsb_exists. split.
  - intros [y [Hy Heq]]. apply String.eqb_eq in Heq. now subst.
  - intros H. exists x. split; [assumption | apply String.eqb_refl].
Qed.

Lemma str_in_false (x : string) (xs : list string) :
  str_in x xs = false <-> ~ In x xs.
Proof.
  rewrite <- str_in_spec. symmetry. apply not_true_iff_false.
Qed.

Lemma append_assoc (a b c : string) : (a ++ b) ++ c = a ++ (b ++ c).
Proof. induction a as [| x a IH]; simpl; [reflexivity | now rewrite IH]. Qed.

Lemma append_nil_r (a : string) : a ++ "" = a.
Proof. induction a as [| x a IH]; simpl; [reflexivity | now rewrite IH]. Qed.

Lemma prefix_append (p b : string) : prefix p (p ++ b) = true.
Proof.
  induction p as [| x p IH]; simpl; [now destruct b |].
  destruct (ascii_dec x x); [exact IH | congruence].
Qed.

Lemma prefix_inv (p s : string) :
  prefix p s = true -> exists b, s = p ++ b.
Proof.
  revert s. induction p as [| x p IH]; intros s H.
  - exists s. reflexivity.
  - destruct s as [| y s]; simpl in H; [discriminate |].
    destruct (ascii_dec x y) as [-> | _]; [| discriminate].
    destruct (IH s H) as [b ->]. exists b. reflexivity.
Qed.

Lemma contains_prefix (p s : string) :
  prefix p s = true -> contains p s = true.
Proof. intros H. destruct s; cbn [contains]; now rewrite H. Qed.

(** [contains] finds the text exactly when it occurs. *)
Lemma contains_iff (sub s : string) :
  contains sub s = true <-> exists a b, s = a ++ sub ++ b.
Proof.
  split.
  - induction s as [| x s IH]; cbn [contains]; intros H.
    + destruct (prefix sub "") eqn:Hp; [| discriminate].
      apply prefix_inv in Hp. destruct Hp as [b Hb].
      exists "", b. exact Hb.
    + destruct (prefix sub (String x s)) eqn:Hp.
      * apply prefix_inv in Hp. destruct Hp as [b Hb].
        exists "", b. exact Hb.
      * destruct (IH H) as [a [b ->]]. exists (String x a), b. reflexivity.
  - intros [a [b ->]]. induction a as [| x a IH].
    + change ("" ++ sub ++ b) with (sub ++ b).
      apply contains_prefix, prefix_append.
    + change (String x a ++ sub ++ b) with (String x (a ++ sub ++ b)).
      cbn [contains]. rewrite IH.
      now destruct (prefix sub (String x (a ++ sub ++ b))).
Qed.

Lemma contains_self (s : string) : contains s s = true.
Proof.
  apply contains_iff. exists "", "". simpl. now rewrite append_nil_r.
Qed.

Lemma contains_append_l (sub a b : string) :
  contains sub a = true -> contains sub (a ++ b) = true.
Proof.
  rewrite !contains_iff. intros [x [y ->]].
  exists x, (y ++ b). now rewrite !append_assoc.
Qed.

Lemma contains_append_r (sub a b : string) :
  contains sub b = true -> contains sub (a ++ b) = true.
Proof.
  rewrite !contains_iff. intros [x [y ->]].
  exists (a ++ x), y. now rewrite !append_assoc.
Qed.

Lemma contains_trans (a b c : string) :
  contains a b = true -> contains b c = true -> contains a c = true.
Proof.
  rewrite !contains_iff. intros [x [y ->]] [x' [y' ->]].
  exists (x' ++ x), (y ++ y'). now rewrite !append_assoc.
Qed.

(** Every part is found in the joined text. *)
Lemma contains_join (sep p : string) (parts : list string) :
  In p parts -> contains p (join sep parts) = true.
Proof.
  induction parts as [| q parts IH]; [contradiction |].
  intros [-> | Hin].
  - destruct parts; simpl; [apply contains_self |].
    apply contains_append_l, contains_self.
  - destruct parts as [| q' parts]; [contradiction |].
    change (join sep (q :: q' :: parts))
      with (q ++ sep ++ join sep (q' :: parts)).
    apply contains_append_r, contains_append_r, IH, Hin.
Qed.

(** A text whose first character a prefix lacks does not start inside that
    prefix. *)
Lemma contains_skip (c : ascii) (m p x : string) :
  has_char c p = false ->
  contains (String c m) (p ++ x) = contains (String c m) x.
Proof.
  induction p as [| y p IH]; simpl; intros H; [reflexivity |].
  destruct (Ascii.eqb_spec y c) as [-> | Hne]; [discriminate |].
  destruct (ascii_dec c y) as [-> | _]; [congruence |].
  destruct x; simpl; apply IH, H.
Qed.

Lemma prefix_cut (c : ascii) (m a b : string) :
  has_char c m = false ->
  prefix m (a ++ String c b) = prefix m a.
Proof.
  revert a. induction m as [| y m IH]; intros a H.
  - now destruct a.
  - simpl in H. destruct (Ascii.eqb_spec y c) as [-> | Hne]; [discriminate |].
    destruct a as [| z a]; simpl.
    + destruct (ascii_dec y c); [congruence | reflexivity].
    + destruct (ascii_dec y z); [apply IH, H | reflexivity].
Qed.

(** A text without the character [c] occurs in [a ++ c :: b] on one side
    of [c]. *)
Lemma contains_cut (c x : ascii) (m a b : string) :
  has_char c (String x m) = false ->
  contains (String x m) (a ++ String c b)
    = (contains (String x m) a || contains (String x m) b)%bool.
Proof.
  intros H. induction a as [| y a IH].
  - assert (Hx : x <> c).
    { intros ->. simpl in H. now rewrite Ascii.eqb_refl in H. }
    cbn [append contains prefix orb].
    destruct (ascii_dec x c); [contradiction | reflexivity].
  - change (String y a ++ String c b) with (String y (a ++ String c b)).
    cbn [contains].
    change (String y (a ++ String c b)) with (String y a ++ String c b).
    rewrite (prefix_cut c (String x m) (String y a) b H).
    destruct (prefix (String x m) (String y a)); [reflexivity | exact IH].
Qed.

Lemma lower_of_variant (c d : ascii) :
  is_lower_letter d = true -> c = d \/ c = upper_ascii d -> lower_ascii c = d.
Proof.
  intros Hd [-> | ->]; revert Hd;
    destruct d as [[] [] [] [] [] [] [] []]; vm_compute; congruence.
Qed.

Example lower_example : lower "PRODUCTION" = "production".
Proof. reflexivity. Qed.

Example strip_example :
  strip "  FINAL DECISION: FRAUD
 " = "FINAL DECISION: FRAUD" /\ strip " 	
" = "".
Proof. split; reflexivity. Qed.

Example join_example : join ", " ["a"; "b"; "c"] = "a, b, c".
Proof. reflexivity. Qed.

Example contains_example :
  contains "type: PAYMENT" "• type: PAYMENT" = true /\
  contains "PAYMENT" "type: PAY" = false /\
  contains "" "" = true.
Proof. repeat split. Qed.

End StringFacts.

(** ** Tool B: balance anomaly *)

Module BalanceAnomalyFacts.
Import Py PyNum PyNumFacts StringFacts Tools.

(** The branch taken once the type and the balance let the ratio be
    computed. *)
Lemma ratio_branches (fdiv : Q -> Q -> Q) (amount oldbalanceOrg : Q)
    (tx_type : string) :
  ~ In tx_type low_risk_types -> (0 < oldbalanceOrg)%Q ->
  let ratio := fdiv amount oldbalanceOrg in
  check_balance_anomaly fdiv amount oldbalanceOrg tx_type =
    if gt ratio 2 then mkBalance SevereAnomaly "+2"
    else if gt ratio 1.5 then mkBalance ModerateAnomaly "+1"
    else if gt ratio 1 then mkBalance MildAnomaly "+0.5"
    else mkBalance NoAnomaly "0".
Proof.
  intros Hty Hbal ratio. unfold check_balance_anomaly.
  apply str_in_false in Hty. rewrite Hty.
  apply le_false in Hbal. rewrite Hbal. reflexivity.
Qed.



(** The quotient is the rounded one.  The doubles 0.45 and 0.3 have a
    quotient above 1.5 that rounds to 1.5, and the answer is the mild
    branch; 1.05 / 0.7 rounds above 1.5 and is moderate, where
    10.5 / 7.0 is exactly 1.5 and mild. *)
Example rounded_quotient_decides :
  (1.5 < Double.as_double 0.45 / Double.as_double 0.3)%Q /\
  check_balance_anomaly Double.div
      (Double.as_double 0.45) (Double.as_double 0.3) "TRANSFER"
    = mkBalance MildAnomaly "+0.5" /\
  check_balance_anomaly Double.div
      (Double.as_double 1.05) (Double.as_double 0.7) "TRANSFER"
    = mkBalance ModerateAnomaly "+1" /\
  check_balance_anomaly Double.div 10.5 7 "TRANSFER"
    = mkBalance MildAnomaly "+0.5".
Proof. repeat split; vm_compute; reflexivity. Qed.

(** A quotient beyond the doubles is infinite, and severe. *)
Example quotient_overflow_is_severe :
  check_balance_anomaly Double.div
      (inject_Z (2 ^ 1000)) (1 # Pos.pow 2 1000) "CASH_OUT"
    = mkBalance SevereAnomaly "+2".
Proof. vm_compute. reflexivity. Qed.

(** C3, as the specification states it, fails on a TRANSFER of 3 from a
    balance of 2: the double quotient is exactly 1.5 and the score is
    not +1. *)
Lemma ratio_one_and_a_half_is_not_moderate :
  (0 < 2)%Q /\ (Double.div 3 2 == 1.5)%Q /\
  balance_signal (check_balance_anomaly Double.div 3 2 "TRANSFER") <> "+1".
Proof.
  split; [reflexivity | split; [vm_compute; reflexivity |]].
  vm_compute. discriminate.
Qed.

(** C3, amended.  For a TRANSFER or CASH_OUT with a positive balance
    before and amount / balance before, as the code computes it, exactly
    1.5, the balance-anomaly tool answers the mild branch, +0.5: the
    moderate band starts strictly above 1.5. *)
Theorem ratio_one_and_a_half_is_mild
    (fdiv : Q -> Q -> Q) (amount oldbalanceOrg : Q) (tx_type : string) :
  tx_type = "TRANSFER" \/ tx_type = "CASH_OUT" ->
  (0 < oldbalanceOrg)%Q ->
  (fdiv amount oldbalanceOrg == 1.5)%Q ->
  check_balance_anomaly fdiv amount oldbalanceOrg tx_type
    = mkBalance MildAnomaly "+0.5".
Proof.
  intros Hty Hbal Hratio.
  rewrite ratio_branches; [| | assumption].
  - assert (H2 : gt (fdiv amount oldbalanceOrg) 2 = false)
      by (apply gt_false; rewrite Hratio; discriminate).
    assert (H15 : gt (fdiv amount oldbalanceOrg) 1.5 = false)
      by (apply gt_false; rewrite Hratio; apply Qle_refl).
    assert (H1 : gt (fdiv amount oldbalanceOrg) 1 = true)
      by (apply gt_true; rewrite Hratio; reflexivity).
    now rewrite H2, H15, H1.
  - intros Hin. destruct Hty; subst tx_type; simpl in Hin;
      intuition discriminate.
Qed.

Lemma ratio_one_and_a_half_is_mild_witness :
  (0 < 2)%Q /\ (Double.div 3 2 == 1.5)%Q /\
  check_balance_anomaly Double.div 3 2 "CASH_OUT"
    = mkBalance MildAnomaly "+0.5".
Proof.
  split; [reflexivity | split; [vm_compute; reflexivity |]].
  apply (ratio_one_and_a_half_is_mild Double.div 3 2 "CASH_OUT");
    [right; reflexivity | reflexivity | vm_compute; reflexivity].
Defined.

End BalanceAnomalyFacts.

(** ** Tool A: account behaviour *)

Module OriginHistoryFacts.
Import Py PyNum PyNumFacts Store Tools ToolASpec.

Lemma len_nonneg (l : DataFrame) : 0 <= len l.
Proof. unfold len. lia. Qed.

Lemma len_zero_nil (l : DataFrame) : len l = 0 <-> l = [].
Proof.
  unfold len. destruct l; simpl; split; intros H;
    try reflexivity; try discriminate; lia.
Qed.

Lemma firstn_subset (k : nat) (l : DataFrame) : incl (firstn k l) l.
Proof.
  revert l. induction k as [| k IH]; intros [| y l] x Hx;
    simpl in Hx; try contradiction.
  destruct Hx as [-> | Hx]; [now left | right; now apply IH].
Qed.

Lemma head_incl (n : Z) (l : DataFrame) : incl (head n l) l.
Proof.
  unfold head. destruct (0 <=? n); apply firstn_subset.
Qed.

(** A window of at least one row of a frame with rows is not empty. *)
Lemma head_nonempty (n : Z) (l : DataFrame) :
  1 <= n -> l <> [] -> head n l <> [].
Proof.
  intros Hn Hl. unfold head.
  destruct (Z.leb_spec 0 n) as [_ | Hneg]; [| lia].
  destruct l as [| x l]; [congruence |].
  destruct (Z.to_nat n) as [| k] eqn:Hk; [lia |].
  simpl. discriminate.
Qed.

Lemma filter_nil_existsb (f : TransactionRecord -> bool) (l : DataFrame) :
  filter f l = [] <-> existsb f l = false.
Proof.
  induction l as [| x l IH]; simpl; [tauto |].
  destruct (f x); simpl; [split; discriminate | exact IH].
Qed.

(** On 0/1 flags the sum of the column is the count of the flagged rows. *)
Lemma sum_flags_is_count (l : DataFrame) :
  flags_are_boolean l -> fraud_count_of l = fraudCount l.
Proof.
  unfold flags_are_boolean, fraud_count_of, fraudCount, len.
  induction 1 as [| r l Hr _ IH]; [reflexivity |].
  cbn [sum_col fold_right filter]. fold (sum_col isFraud l). rewrite IH.
  destruct Hr as [Hr | Hr]; rewrite Hr; cbn [Z.eqb negb List.length];
    rewrite ?Nat2Z.inj_succ; lia.
Qed.

(** The two per-type counts add up to the count of either type. *)
Lemma high_risk_is_count (l : DataFrame) :
  high_risk_txs_of l = highRiskCount l.
Proof.
  unfold high_risk_txs_of, highRiskCount, count_eq, len, str_in.
  induction l as [| r l IH]; [reflexivity |].
  cbn [filter existsb] in IH |- *.
  destruct (String.eqb_spec (type r) "TRANSFER") as [Ht | Ht];
    destruct (String.eqb_spec (type r) "CASH_OUT") as [Hc | Hc];
    try (rewrite Ht in Hc; discriminate);
    cbn [orb List.length]; rewrite ?Nat2Z.inj_succ; lia.
Qed.

(** The percentage the code compares with 5 and with 0 against the
    fraction the specification compares with 0.05 and with 0. *)
Lemma fraud_rate_percent (l : DataFrame) :
  flags_are_boolean l ->
  (fraud_rate_of l == fraudRate l * 100)%Q.
Proof.
  intros Hl. unfold fraud_rate_of, fraudRate, total.
  rewrite (sum_flags_is_count l Hl).
  pose proof (len_nonneg l) as Hpos.
  destruct (Z.ltb_spec 0 (len l)); destruct (Z.eqb_spec (len l) 0);
    try lia; reflexivity.
Qed.

Lemma risky_agrees (l : DataFrame) :
  flags_are_boolean l -> gt (fraud_rate_of l) 5 = gt (fraudRate l) 0.05.
Proof.
  intros Hl. apply eq_true_iff_eq. rewrite !gt_true.
  rewrite (fraud_rate_percent l Hl). split; intros; lra.
Qed.

Lemma caution_agrees (l : DataFrame) :
  flags_are_boolean l -> gt (fraud_rate_of l) 0 = gt (fraudRate l) 0.
Proof.
  intros Hl. apply eq_true_iff_eq. rewrite !gt_true.
  rewrite (fraud_rate_percent l Hl). split; intros; lra.
Qed.

(** Exactly one branch fires: the first whose condition holds. *)
Lemma fires_first_match (fetched : DataFrame) (b : assessment) :
  fires b fetched <-> b = first_match fetched.
Proof.
  unfold fires, first_match. split.
  - intros [Hb Hbefore].
    pose proof (Hbefore NoTransactionHistory) as H0.
    pose proof (Hbefore RiskyAccount) as H1.
    pose proof (Hbefore TrustedAccount) as H2.
    pose proof (Hbefore LimitedHistory) as H3.
    pose proof (Hbefore Caution) as H4.
    clear Hbefore.
    destruct b; cbn [rank] in *;
      repeat match goal with
             | H : (?x < ?y)%nat -> _ |- _ =>
                 first [specialize (H ltac:(lia)) | clear H]
             end;
      repeat match goal with
             | H : holds _ fetched = _ |- _ => rewrite H; clear H
             end;
      reflexivity.
  - intros ->.
    destruct (holds NoTransactionHistory fetched) eqn:H0;
    [| destruct (holds RiskyAccount fetched) eqn:H1;
    [| destruct (holds TrustedAccount fetched) eqn:H2;
    [| destruct (holds LimitedHistory fetched) eqn:H3;
    [| destruct (holds Caution fetched) eqn:H4]]]];
    (split;
     [ first [assumption | reflexivity]
     | intros b' Hlt; destruct b'; cbn [rank] in Hlt;
       first [lia | assumption] ]).
Qed.

Lemma step_desc_transitive : Relations_1.Transitive step_desc.
Proof. intros a b c. unfold step_desc. lia. Qed.

(** In a frame sorted by descending step, no row of a later part is more
    recent than a row of an earlier part. *)
Lemma sorted_split (a b : DataFrame) :
  Sorted step_desc (a ++ b) ->
  forall x y, In x a -> In y b -> step y <= step x.
Proof.
  intros Hs. apply (Sorted_StronglySorted step_desc_transitive) in Hs.
  induction a as [| r a IH]; intros x y Hx Hy; [contradiction |].
  simpl in Hs. inversion Hs as [| ? ? Hrest Hall]; subst.
  destruct Hx as [-> | Hx].
  - rewrite Forall_forall in Hall. apply Hall, in_or_app. now right.
  - now apply IH.
Qed.

Section WithStore.

Variable sort_values_step_desc : DataFrame -> DataFrame.
Hypothesis sort_permutes :
  forall l, Permutation (sort_values_step_desc l) l.
Hypothesis sort_descends :
  forall l, Sorted step_desc (sort_values_step_desc l).

Variable df : DataFrame.
Hypothesis flags : flags_are_boolean df.

Lemma recent_incl (origin_id : string) (n : Z) :
  incl (recent_of sort_values_step_desc df origin_id n) df.
Proof.
  intros x Hx. unfold recent_of in Hx. apply head_incl in Hx.
  apply (Permutation_in _ (sort_permutes _)) in Hx.
  apply filter_In in Hx. tauto.
Qed.

Lemma recent_flags (origin_id : string) (n : Z) :
  flags_are_boolean (recent_of sort_values_step_desc df origin_id n).
Proof.
  unfold flags_are_boolean in *. rewrite Forall_forall in *.
  intros x Hx. apply flags. eapply recent_incl; eassumption.
Qed.

(** With a window of at least one row, nothing is fetched exactly when
    the origin has no row in the store. *)
Lemma recent_empty_iff (origin_id : string) (n : Z) :
  1 <= n ->
  (total (recent_of sort_values_step_desc df origin_id n) =? 0)
    = negb (existsb (origin_mask origin_id) df).
Proof.
  intros Hn. unfold total, recent_of.
  destruct (existsb (origin_mask origin_id) df) eqn:Hany; simpl.
  - apply Z.eqb_neq. rewrite len_zero_nil.
    apply head_nonempty; [assumption |].
    intros Hnil.
    pose proof (sort_permutes (filter (origin_mask origin_id) df)) as Hf.
    rewrite Hnil in Hf. apply Permutation_nil in Hf.
    apply filter_nil_existsb in Hf. congruence.
  - apply Z.eqb_eq. rewrite len_zero_nil.
    apply filter_nil_existsb in Hany. rewrite Hany.
    assert (Hs : sort_values_step_desc [] = [])
      by (apply Permutation_nil; symmetry; apply sort_permutes).
    rewrite Hs. unfold head. destruct (0 <=? n); apply firstn_nil.
Qed.

(** The fetched records are the [n] most recent of the origin: they are
    [n] of its rows, or all of them when it has fewer, and no row left
    out has a later step than a fetched one. *)
Lemma recent_are_most_recent (origin_id : string) (n : Z) :
  1 <= n ->
  let rows := filter (origin_mask origin_id) df in
  let fetched := recent_of sort_values_step_desc df origin_id n in
  len fetched = Z.min n (len rows) /\
  exists older,
    Permutation (fetched ++ older) rows /\
    forall x y, In x fetched -> In y older -> step y <= step x.
Proof.
  intros Hn rows fetched. subst fetched. unfold recent_of, head. fold rows.
  destruct (Z.leb_spec 0 n) as [_ | Hneg]; [| lia].
  split.
  - unfold len. rewrite length_firstn.
    rewrite (Permutation_length (sort_permutes rows)). lia.
  - exists (skipn (Z.to_nat n) (sort_values_step_desc rows)). split.
    + rewrite firstn_skipn. apply sort_permutes.
    + apply sorted_split. rewrite firstn_skipn. apply sort_descends.
Qed.

(** The report is the first branch, in the documented order, whose
    condition holds on the fetched records, with its score. *)
Lemma report_is_first_match (origin_id : string) (n : Z) :
  1 <= n ->
  let fetched := recent_of sort_values_step_desc df origin_id n in
  get_origin_history sort_values_step_desc df origin_id n =
    mkHistory (first_match fetched) (score (first_match fetched)).
Proof.
  intros Hn. unfold get_origin_history, first_match, holds. cbv zeta.
  rewrite (recent_empty_iff origin_id n Hn).
  rewrite (risky_agrees _ (recent_flags origin_id n)).
  rewrite (caution_agrees _ (recent_flags origin_id n)).
  rewrite high_risk_is_count. unfold total.
  repeat match goal with
         | |- context [if ?c then _ else _] => destruct c
         end; reflexivity.
Qed.

(** C1.  For every origin account and every window of at least one
    record, the account-behaviour tool fires exactly one of the six
    branches, the first in the documented order whose condition holds
    over the most recent records fetched for the origin: no history
    +2 (an ordinary report), fraud rate above 5% +2, at least five
    TRANSFER/CASH_OUT -2, fewer than three records +1, some fraud +1,
    otherwise -1. *)
Theorem get_origin_history_branch_priority (origin_id : string) (n : Z) :
  1 <= n ->
  let fetched := recent_of sort_values_step_desc df origin_id n in
  let report := get_origin_history sort_values_step_desc df origin_id n in
  (forall b, fires b fetched <-> b = risk report) /\
  signal report = score (risk report) /\
  (risk report = NoTransactionHistory
     <-> existsb (origin_mask origin_id) df = false) /\
  len fetched = Z.min n (len (filter (origin_mask origin_id) df)) /\
  (exists older,
     Permutation (fetched ++ older) (filter (origin_mask origin_id) df) /\
     forall x y, In x fetched -> In y older -> step y <= step x).
Proof.
  intros Hn fetched report.
  pose proof (report_is_first_match origin_id n Hn) as Hrep.
  cbv zeta in Hrep. fold fetched in Hrep. fold report in Hrep.
  rewrite Hrep. cbn [risk signal].
  split; [intros b; apply fires_first_match | split; [reflexivity |]].
  split; [| exact (recent_are_most_recent origin_id n Hn)].
  pose proof (recent_empty_iff origin_id n Hn) as Hempty.
  fold fetched in Hempty.
  unfold first_match.
  change (holds NoTransactionHistory fetched) with (total fetched =? 0).
  rewrite Hempty.
  destruct (existsb (origin_mask origin_id) df); cbn [negb].
  - split; [| discriminate].
    repeat match goal with
           | |- context [if ?c then _ else _] => destruct c
           end; discriminate.
  - tauto.
Qed.

End WithStore.

(** The insertion sort is a [sort_values("step", ascending=False)]. *)
Lemma insert_desc_permutes (r : TransactionRecord) (l : DataFrame) :
  Permutation (insert_desc r l) (r :: l).
Proof.
  induction l as [| x l IH]; simpl; [apply Permutation_refl |].
  destruct (step x <? step r); [apply Permutation_refl |].
  eapply perm_trans; [apply perm_skip, IH | apply perm_swap].
Qed.

Lemma insertion_sort_desc_permutes (l : DataFrame) :
  Permutation (insertion_sort_desc l) l.
Proof.
  induction l as [| x l IH]; simpl; [apply perm_nil |].
  eapply perm_trans; [apply insert_desc_permutes | apply perm_skip, IH].
Qed.

Lemma insert_desc_sorted (r : TransactionRecord) (l : DataFrame) :
  Sorted step_desc l -> Sorted step_desc (insert_desc r l).
Proof.
  induction 1 as [| x l Hl IH Hx]; simpl.
  - repeat constructor.
  - destruct (Z.ltb_spec (step x) (step r)) as [Hlt | Hge].
    + constructor; [now constructor |].
      constructor. unfold step_desc. lia.
    + constructor; [exact IH |].
      destruct l as [| y l]; simpl.
      * constructor. unfold step_desc. lia.
      * inversion Hx; subst.
        destruct (step y <? step r); constructor;
          unfold step_desc in *; lia.
Qed.

Lemma insertion_sort_desc_sorted (l : DataFrame) :
  Sorted step_desc (insertion_sort_desc l).
Proof.
  induction l as [| x l IH]; simpl; [constructor |].
  now apply insert_desc_sorted.
Qed.

Lemma small_df_flags : flags_are_boolean Samples.small_df.
Proof. repeat constructor; (now left) || (now right). Qed.

Lemma get_origin_history_branch_priority_witness :
  1 <= 10 /\
  let fetched := recent_of insertion_sort_desc Samples.small_df "C1" 10 in
  let report := get_origin_history insertion_sort_desc Samples.small_df "C1" 10 in
  (forall b, fires b fetched <-> b = risk report) /\
  signal report = score (risk report).
Proof.
  split; [lia |].
  destruct (get_origin_history_branch_priority
              insertion_sort_desc insertion_sort_desc_permutes
              insertion_sort_desc_sorted
              Samples.small_df small_df_flags "C1" 10 ltac:(lia))
    as [Hfires [Hscore _]].
  split; [exact Hfires | exact Hscore].
Defined.

(** The six branches on sample stores, in the documented order. *)
Example no_history_branch :
  get_origin_history insertion_sort_desc Samples.small_df "C0" 10
    = mkHistory NoTransactionHistory "+2".
Proof. reflexivity. Qed.

Example fraud_rate_branch :
  get_origin_history insertion_sort_desc Samples.small_df "C1" 10
    = mkHistory RiskyAccount "+2".
Proof. vm_compute. reflexivity. Qed.

Example frequent_branch :
  get_origin_history insertion_sort_desc Samples.frequent_df "C5" 10
    = mkHistory TrustedAccount "-2".
Proof. vm_compute. reflexivity. Qed.

Example limited_branch :
  get_origin_history insertion_sort_desc Samples.small_df "C9" 10
    = mkHistory LimitedHistory "+1".
Proof. vm_compute. reflexivity. Qed.

Example some_fraud_branch :
  get_origin_history insertion_sort_desc Samples.five_percent_df "C7" 20
    = mkHistory Caution "+1".
Proof. vm_compute. reflexivity. Qed.

Example default_branch :
  get_origin_history insertion_sort_desc Samples.clean_df "C3" 10
    = mkHistory NormalBehavior "-1".
Proof. vm_compute. reflexivity. Qed.

(** The window matters: the default window of ten leaves the old fraud
    of C7 out, and a window of none fetches nothing from an account
    that has rows. *)
Example window_drops_old_fraud :
  get_origin_history insertion_sort_desc Samples.five_percent_df "C7" 10
    = mkHistory NormalBehavior "-1".
Proof. vm_compute. reflexivity. Qed.

Example empty_window_is_limited :
  get_origin_history insertion_sort_desc Samples.small_df "C1" 0
    = mkHistory LimitedHistory "+1".
Proof. vm_compute. reflexivity. Qed.

End OriginHistoryFacts.

(** ** Tool 5: comparison with the account average *)

Module AccountAverageFacts.
Import PyNum PyNumFacts Store Tools.

Lemma filter_filter (f g : TransactionRecord -> bool) (l : DataFrame) :
  filter g (filter f l) = filter (fun r => f r && g r) l.
Proof.
  induction l as [| x l IH]; [reflexivity |].
  simpl. destruct (f x); simpl; [destruct (g x) |]; now rewrite IH.
Qed.

Lemma std_single (np : float_ops) (x : Q) : std np [x] = NaN.
Proof. reflexivity. Qed.

(** C10.  When the store holds exactly one record of the origin with the
    given transaction type, the comparison with the account average
    answers the typical-amount result for every amount: the sample
    standard deviation of the single amount is not-a-number, so is the
    upper bound mean + 2 * std, and no amount is greater than it. *)
Theorem single_record_is_never_unusual
    (np : float_ops) (df : DataFrame)
    (origin_id : string) (amount : Q) (tx_type : string) :
  List.length
    (filter (fun r => String.eqb (nameOrig r) origin_id
                      && String.eqb (type r) tx_type) df) = 1%nat ->
  let same_type :=
    filter (fun r => String.eqb (type r) tx_type)
      (filter (origin_mask origin_id) df) in
  let amounts := map Store.amount same_type in
  std np amounts = NaN /\
  add np (mean np amounts) (mul np (Fin 2) (std np amounts)) = NaN /\
  compare_to_account_average np df origin_id amount tx_type
    = mkAverage TypicalAmount "-1".
Proof.
  intros Hone. cbv zeta.
  remember (filter (fun r => String.eqb (type r) tx_type)
              (filter (origin_mask origin_id) df)) as same_type eqn:Hrows.
  assert (Hlen : List.length same_type = 1%nat)
    by (rewrite Hrows, filter_filter; exact Hone).
  destruct same_type as [| r [| r' rest]]; try discriminate Hlen.
  assert (Hany : existsb (origin_mask origin_id) df = true).
  { apply existsb_exists. exists r.
    assert (Hin : In r (filter (fun r => String.eqb (type r) tx_type)
                          (filter (origin_mask origin_id) df)))
      by (rewrite <- Hrows; now left).
    apply filter_In in Hin. destruct Hin as [Hin _].
    apply filter_In in Hin. exact Hin. }
  cbn [map].
  assert (Hstd : std np [Store.amount r] = NaN) by apply std_single.
  assert (Hbound : add np (mean np [Store.amount r])
                     (mul np (Fin 2) (std np [Store.amount r])) = NaN).
  { rewrite Hstd. unfold add, mul. cbn [lift2]. apply lift2_nan_r. }
  split; [exact Hstd | split; [exact Hbound |]].
  unfold compare_to_account_average. rewrite Hany. cbn [negb].
  rewrite <- Hrows. cbv zeta. cbn [map]. rewrite Hbound. reflexivity.
Qed.

Lemma single_record_is_never_unusual_witness :
  List.length
    (filter (fun r => String.eqb (nameOrig r) "C9"
                      && String.eqb (type r) "TRANSFER") Samples.small_df) = 1%nat /\
  compare_to_account_average Samples.exact_ops Samples.small_df "C9"
    1000000000 "TRANSFER" = mkAverage TypicalAmount "-1".
Proof.
  split; [reflexivity |].
  apply (single_record_is_never_unusual Samples.exact_ops Samples.small_df
           "C9" 1000000000 "TRANSFER").
  reflexivity.
Defined.

(** With three records of the type the bound is a number (30 + 2 * 20
    here) and an amount above it is flagged. *)
Example three_records_flag_large_amount :
  compare_to_account_average Samples.exact_ops Samples.frequent_df "C5"
    70 "TRANSFER" = mkAverage TypicalAmount "-1" /\
  compare_to_account_average Samples.exact_ops Samples.frequent_df "C5"
    71 "TRANSFER" = mkAverage UnusualAmount "+1".
Proof. split; vm_compute; reflexivity. Qed.

End AccountAverageFacts.

(** ** The loader: sampling range and determinism *)

Module LoaderFacts.
Import PyNum PyNumFacts Store Py Loader.

Section WithGenerator.

Variable rng : Type.
Variable seed_rng : Z -> rng.
Variable draw : rng -> Q -> DataFrame -> DataFrame * rng.

Lemma in_range_iff (f : Q) :
  (gt f 0 && le f 1)%bool = true <-> (0 < f)%Q /\ (f <= 1)%Q.
Proof. rewrite andb_true_iff, gt_true, le_true. tauto. Qed.

Lemma out_of_range_iff (f : Q) :
  (gt f 0 && le f 1)%bool = false <-> (f <= 0)%Q \/ (1 < f)%Q.
Proof. rewrite andb_false_iff, gt_false, le_false. tauto. Qed.

(** [load_data] is the shared body on the file that is found. *)
Lemma load_data_dataset (dir : data_dir) (sample_frac : option Q) (g : rng) :
  load_data rng seed_rng draw dir sample_frac g =
    match dataset_of dir with
    | Some df => _load_parquet rng seed_rng draw df sample_frac g
    | None => (Raise (not_found dir), g)
    end.
Proof.
  unfold load_data, dataset_of.
  destruct (parquet_file dir); [reflexivity |].
  destruct (csv_file dir); reflexivity.
Qed.

(** C7.  A sampling fraction that is at most 0 or above 1 makes
    [load_data] raise, whatever the data directory holds: nothing is
    clamped and no frame is returned; when a data file is there the
    error is the range error.  A fraction in (0, 1] never raises the
    range error, and with a data file there a frame is returned. *)
Theorem sample_frac_out_of_range_raises
    (dir : data_dir) (f : Q) (g : rng) :
  let out := load_data rng seed_rng draw dir (Some f) g in
  ((f <= 0)%Q \/ (1 < f)%Q ->
     raises (fst out) = true /\
     (forall df, dataset_of dir = Some df -> fst out = Raise range_error)) /\
  ((0 < f)%Q /\ (f <= 1)%Q ->
     fst out <> Raise range_error /\
     (forall df, dataset_of dir = Some df ->
        fst out = Return (reset_index (fst (draw (seed_rng 42) f df))))).
Proof.
  intros out. subst out. rewrite load_data_dataset.
  unfold _load_parquet, sample. split.
  - intros Hout. apply out_of_range_iff in Hout.
    destruct (dataset_of dir) as [df |]; rewrite ?Hout; simpl.
    + split; [reflexivity |]. intros df' _. reflexivity.
    + split; [reflexivity |]. intros df' Hdf. discriminate Hdf.
  - intros Hin. apply in_range_iff in Hin.
    destruct (dataset_of dir) as [df |]; rewrite ?Hin; simpl.
    + split; [discriminate |].
      intros df' Hdf. injection Hdf as <-. reflexivity.
    + split; [discriminate |]. intros df' Hdf. discriminate Hdf.
Qed.

(** C8.  For a fraction in (0, 1] and a fixed data directory, two
    loads return the same rows in the same order, whatever state the
    process-wide generator is in at each call: the draw is made with a
    generator seeded with 42, and the process-wide generator is left as
    it was. *)
Theorem load_data_is_deterministic
    (dir : data_dir) (f : Q) (g1 g2 : rng) :
  (0 < f)%Q /\ (f <= 1)%Q ->
  let first := load_data rng seed_rng draw dir (Some f) g1 in
  let second := load_data rng seed_rng draw dir (Some f) g2 in
  fst first = fst second /\
  snd first = g1 /\
  fst (load_data rng seed_rng draw dir (Some f) (snd first)) = fst first /\
  (forall df, dataset_of dir = Some df ->
     exists rows, fst first = Return rows /\ fst second = Return rows).
Proof.
  intros Hin first second. subst first second.
  rewrite !load_data_dataset.
  unfold _load_parquet, sample.
  apply in_range_iff in Hin. rewrite Hin. cbn [negb].
  destruct (dataset_of dir) as [df |]; simpl.
  - repeat split. intros df' _. eexists. split; reflexivity.
  - repeat split. intros df' Hdf. discriminate Hdf.
Qed.

End WithGenerator.

Lemma load_data_is_deterministic_witness :
  ((0 < 0.5)%Q /\ (0.5 <= 1)%Q) /\
  fst (load_data Z Samples.counter_seed Samples.counter_draw Samples.both_files (Some 0.5%Q) 0)
  = fst (load_data Z Samples.counter_seed Samples.counter_draw Samples.both_files (Some 0.5%Q) 7).
Proof.
  split; [split; [reflexivity | discriminate] |].
  apply (load_data_is_deterministic Z Samples.counter_seed Samples.counter_draw
           Samples.both_files 0.5%Q 0 7).
  split; [reflexivity | discriminate].
Defined.

(** The seed is what makes it so: drawn from the process-wide generator,
    the sample depends on the state of that generator. *)
Example unseeded_sample_depends_on_generator :
  fst (sample Z Samples.counter_seed Samples.counter_draw 0.5 None Samples.small_df 0)
  <> fst (sample Z Samples.counter_seed Samples.counter_draw 0.5 None Samples.small_df 7).
Proof. vm_compute. discriminate. Qed.

Example out_of_range_examples :
  fst (load_data Z Samples.counter_seed Samples.counter_draw Samples.both_files (Some 0%Q) 0)
    = Raise range_error /\
  fst (load_data Z Samples.counter_seed Samples.counter_draw Samples.both_files (Some 1.5%Q) 0)
    = Raise range_error /\
  raises (fst (load_data Z Samples.counter_seed Samples.counter_draw Samples.both_files
                 (Some 1%Q) 0)) = false.
Proof. repeat split. Qed.

End LoaderFacts.

(** ** The orchestrator *)

Module AgentFacts.
Import Py Prompts Agent StringFacts.

Lemma production_prompt_selected :
  get_system_prompt "production" = Return PRODUCTION_PROMPT.
Proof. reflexivity. Qed.

Lemma accepted_iff (mode : string) :
  str_in (lower mode) modes = true <-> In (lower mode) modes.
Proof. apply str_in_spec. Qed.

Lemma tools_called_app (a b : list event) :
  tools_called (a ++ b) = (tools_called a ++ tools_called b)%list.
Proof.
  induction a as [| [| ms | c] a IH]; simpl; try exact IH;
    [reflexivity | now rewrite IH].
Qed.

Lemma invocations_app (a b : list event) :
  invocations (a ++ b) = (invocations a ++ invocations b)%list.
Proof.
  induction a as [| [| ms | c] a IH]; simpl; try exact IH;
    [reflexivity | now rewrite IH].
Qed.

Lemma tools_called_map (cs : list tool_call) :
  tools_called (map ToolCalled cs) = cs.
Proof. induction cs as [| c cs IH]; simpl; [reflexivity | now rewrite IH]. Qed.

Lemma invocations_map (cs : list tool_call) :
  invocations (map ToolCalled cs) = [].
Proof. induction cs as [| c cs IH]; simpl; [reflexivity | exact IH]. Qed.

(** A text that states a verdict carries the verdict marker. *)
Lemma verdict_has_marker (decision probability text : string) :
  states_verdict decision probability text = true ->
  contains verdict_marker text = true.
Proof.
  unfold states_verdict. rewrite andb_true_iff. intros [_ H].
  eapply contains_trans; [| exact H].
  apply contains_append_l, contains_self.
Qed.

(** A mode that is an accepted word up to the case of its letters
    lowers to that word. *)
Lemma lower_case_variant (s w : string) :
  all_lower w = true -> case_variant s w -> lower s = w.
Proof.
  revert w. induction s as [| c s IH]; intros [| d w] Hw Hv;
    simpl in Hv; try contradiction; [reflexivity |].
  simpl in Hw. apply andb_true_iff in Hw. destruct Hw as [Hd Hw].
  destruct Hv as [Hc Hv]. simpl.
  now rewrite (lower_of_variant c d Hd Hc), (IH w Hw Hv).
Qed.

Lemma modes_are_lower (m : string) : In m modes -> all_lower m = true.
Proof.
  simpl. intros [<- | [<- | [<- | [<- | []]]]]; reflexivity.
Qed.

Section WithOracle.

Variable create_agent : agent.
Variable value : Type.
Variable py_str : value -> string.
Variable format_exc : exn -> string.

(** What the orchestrator does on an accepted mode. *)
Lemma run_accepted (tx : dict value) (mode : string) (w : world) :
  In (lower mode) modes ->
  run_fraud_analysis create_agent value py_str format_exc tx mode w =
    let agent_executor := fst (get_agent create_agent w) in
    let w1 := snd (get_agent create_agent w) in
    let r := agent_executor (messages_for value py_str tx) in
    let w2 := log (AgentInvoked (messages_for value py_str tx) :: map ToolCalled (calls r)) w1 in
    match extract_response (ending r) with
    | Return text => (Return text, w2)
    | Raise e => (Return (agent_error value py_str format_exc e tx), w2)
    end.
Proof.
  intros H. unfold run_fraud_analysis.
  apply accepted_iff in H. rewrite H. cbn [negb].
  destruct (get_agent create_agent w) as [a w1].
  rewrite production_prompt_selected. reflexivity.
Qed.

(** What it does on any other mode: the error, and nothing else. *)
Lemma run_rejected (tx : dict value) (mode : string) (w : world) :
  ~ In (lower mode) modes ->
  run_fraud_analysis create_agent value py_str format_exc tx mode w =
    (Raise (ValueError
       ("Invalid mode: " ++ lower mode
        ++ ". Use: production, balanced, conservative, or aggressive. "
        ++ "(All modes currently use the production prompt)")), w).
Proof.
  intros H. unfold run_fraud_analysis.
  rewrite <- accepted_iff in H. apply not_true_is_false in H.
  now rewrite H.
Qed.

Lemma get_agent_trace (w : world) :
  tools_called (trace (snd (get_agent create_agent w))) = tools_called (trace w)
  /\ invocations (trace (snd (get_agent create_agent w))) = invocations (trace w).
Proof.
  unfold get_agent. destruct (_agent w); simpl; [split; reflexivity |].
  rewrite tools_called_app, invocations_app. simpl.
  now rewrite !app_nil_r.
Qed.

(** The trace after the call: one more invocation, and the tools the
    agent called. *)
Lemma run_accepted_trace (tx : dict value) (mode : string) (w : world) :
  In (lower mode) modes ->
  let r := fst (get_agent create_agent w) (messages_for value py_str tx) in
  invocations (trace (snd (run_fraud_analysis create_agent value py_str format_exc tx mode w)))
    = (invocations (trace w) ++ [messages_for value py_str tx])%list /\
  tools_called (trace (snd (run_fraud_analysis create_agent value py_str format_exc tx mode w)))
    = (tools_called (trace w) ++ calls r)%list.
Proof.
  intros H r. rewrite (run_accepted tx mode w H). cbv zeta. fold r.
  destruct (get_agent_trace w) as [Ht Hi].
  assert (Hlog :
    forall w1,
      invocations (trace (log (AgentInvoked (messages_for value py_str tx)
                               :: map ToolCalled (calls r)) w1))
        = (invocations (trace w1) ++ [messages_for value py_str tx])%list /\
      tools_called (trace (log (AgentInvoked (messages_for value py_str tx)
                                :: map ToolCalled (calls r)) w1))
        = (tools_called (trace w1) ++ calls r)%list).
  { intros w1. unfold log. cbn [trace].
    rewrite invocations_app, tools_called_app. cbn [invocations tools_called].
    now rewrite invocations_map, tools_called_map. }
  destruct (extract_response (ending r)); cbn [snd];
    rewrite (proj1 (Hlog _)), (proj2 (Hlog _)), Ht, Hi; split; reflexivity.
Qed.

(** C6, amended.  The orchestrator raises the configuration error exactly
    when the mode, lowercased, is not one of production, balanced,
    conservative, aggressive.  When it raises, the error is the outcome of
    the call (no handler of the orchestrator turns it into a text) and the
    process state is as before: no agent was built or invoked and no tool
    was called. *)
Theorem invalid_mode_raises_before_any_invocation
    (tx : dict value) (mode : string) (w : world) :
  let out := run_fraud_analysis create_agent value py_str format_exc tx mode w in
  (raises (fst out) = true <-> ~ In (lower mode) modes) /\
  (~ In (lower mode) modes ->
     snd out = w /\
     fst out = Raise (ValueError
       ("Invalid mode: " ++ lower mode
        ++ ". Use: production, balanced, conservative, or aggressive. "
        ++ "(All modes currently use the production prompt)"))).
Proof.
  intros out. subst out. split.
  - split.
    + intros Hraise Hin. rewrite (run_accepted tx mode w Hin) in Hraise.
      cbv zeta in Hraise.
      destruct (extract_response _) in Hraise; discriminate Hraise.
    + intros Hout. now rewrite (run_rejected tx mode w Hout).
  - intros Hout. now rewrite (run_rejected tx mode w Hout).
Qed.

(** C9.  The mode is compared without regard to the case of its letters:
    a mode that is one of the four accepted words up to letter case
    lowers to that word, raises nothing, and the call goes on to invoke
    the agent once, exactly as with the word itself. *)
Theorem mode_check_ignores_letter_case
    (tx : dict value) (mode accepted : string) (w : world) :
  In accepted modes ->
  case_variant mode accepted ->
  let out := run_fraud_analysis create_agent value py_str format_exc tx mode w in
  lower mode = accepted /\
  raises (fst out) = false /\
  invocations (trace (snd out))
    = (invocations (trace w) ++ [messages_for value py_str tx])%list /\
  out = run_fraud_analysis create_agent value py_str format_exc tx accepted w.
Proof.
  intros Hin Hvariant out. subst out.
  pose proof (lower_case_variant mode accepted
                (modes_are_lower accepted Hin) Hvariant) as Hlow.
  assert (Hmode : In (lower mode) modes) by now rewrite Hlow.
  assert (Hself : lower accepted = accepted).
  { revert Hin. simpl. intros [<- | [<- | [<- | [<- | []]]]]; reflexivity. }
  assert (Hacc : In (lower accepted) modes) by now rewrite Hself.
  split; [exact Hlow |]. split; [| split].
  - rewrite (run_accepted tx mode w Hmode). cbv zeta.
    now destruct (extract_response _).
  - apply (run_accepted_trace tx mode w Hmode).
  - now rewrite (run_accepted tx mode w Hmode),
                (run_accepted tx accepted w Hacc).
Qed.

Lemma summary_line (tx : dict value) (k : string) (v : value) :
  In (k, v) tx ->
  contains ("  " ++ k ++ ": " ++ py_str v) (tx_summary value py_str tx) = true.
Proof.
  intros Hin. unfold tx_summary. apply contains_join.
  apply (in_map (fun kv => "  " ++ fst kv ++ ": " ++ py_str (snd kv)) _ _ Hin).
Qed.

(** The text of the handler, cut at its line feeds. *)
Lemma agent_error_shape (e : exn) (tx : dict value) :
  agent_error value py_str format_exc e tx =
    "❌ Agent Error: "
    ++ (exn_str e
        ++ String NL
             ((String NL "Transaction:" ++ String NL "")
              ++ (tx_summary value py_str tx
                  ++ String NL
                       ((String NL "Traceback:" ++ String NL "")
                        ++ (format_exc e
                            ++ String NL (String NL troubleshooting)))))).
Proof. reflexivity. Qed.

(** The handler's own text adds no verdict line. *)
Lemma agent_error_adds_no_verdict (e : exn) (tx : dict value) :
  contains verdict_marker (exn_str e) = false ->
  contains verdict_marker (tx_summary value py_str tx) = false ->
  contains verdict_marker (format_exc e) = false ->
  contains verdict_marker (agent_error value py_str format_exc e tx) = false.
Proof.
  intros He Htx Htb. rewrite agent_error_shape.
  change verdict_marker with (String "F" "INAL DECISION:") in *.
  rewrite contains_skip by reflexivity.
  rewrite contains_cut by reflexivity. rewrite He. cbn [orb].
  rewrite contains_skip by reflexivity.
  rewrite contains_cut by reflexivity. rewrite Htx. cbn [orb].
  rewrite contains_skip by reflexivity.
  rewrite contains_cut by reflexivity. rewrite Htb. cbn [orb].
  reflexivity.
Qed.

(** C5.  When the agent invocation raises, on an accepted mode, the
    orchestrator returns normally: the outcome is the diagnostic text,
    which opens with the error banner and the exception's message, shows
    every field name and value of the transaction, and ends with the
    troubleshooting hint.  The exception does not reach the caller, and
    the handler adds no verdict: unless the exception or the transaction
    themselves carry a decision line, the text states none. *)
Theorem agent_failure_returns_diagnostic
    (tx : dict value) (mode : string) (w : world) (e : exn) :
  In (lower mode) modes ->
  ending (fst (get_agent create_agent w) (messages_for value py_str tx)) = Fails e ->
  let out := run_fraud_analysis create_agent value py_str format_exc tx mode w in
  let text := agent_error value py_str format_exc e tx in
  fst out = Return text /\
  prefix "❌ Agent Error: " text = true /\
  contains (exn_str e) text = true /\
  (forall k v, In (k, v) tx ->
     contains k text = true /\ contains (py_str v) text = true) /\
  contains troubleshooting text = true /\
  (contains verdict_marker (exn_str e) = false ->
   contains verdict_marker (tx_summary value py_str tx) = false ->
   contains verdict_marker (format_exc e) = false ->
   forall decision probability,
     states_verdict decision probability text = false).
Proof.
  intros Hmode Hfail out text. subst out.
  rewrite (run_accepted tx mode w Hmode). cbv zeta. rewrite Hfail.
  cbn [extract_response fst].
  split; [reflexivity |]. subst text. unfold agent_error.
  split; [apply prefix_append |].
  split; [apply contains_append_r, contains_append_l, contains_self |].
  split; [| split].
  - intros k v Hin.
    pose proof (summary_line tx k v Hin) as Hline.
    assert (Hsum : forall part,
              contains part ("  " ++ k ++ ": " ++ py_str v) = true ->
              contains part
                ("❌ Agent Error: " ++ exn_str e ++ "

" ++ "Transaction:
" ++ tx_summary value py_str tx ++ "

" ++ "Traceback:
" ++ format_exc e ++ "

" ++ troubleshooting) = true).
    { intros part Hpart.
      do 4 apply contains_append_r. apply contains_append_l.
      eapply contains_trans; eassumption. }
    split; apply Hsum.
    + apply contains_append_r, contains_append_l, contains_self.
    + do 3 apply contains_append_r. apply contains_self.
  - do 9 apply contains_append_r. apply contains_self.
  - intros He Htx Htb decision probability.
    apply not_true_is_false. intros Hverdict.
    apply verdict_has_marker in Hverdict.
    fold (agent_error value py_str format_exc e tx) in Hverdict.
    now rewrite (agent_error_adds_no_verdict e tx He Htx Htb) in Hverdict.
Qed.

Lemma tx_type_item (tx : dict value) (t : string) :
  tx_type value py_str tx = Some t ->
  exists v, In ("type", v) tx /\ py_str v = t.
Proof.
  induction tx as [| [k v] tx IH]; simpl; [discriminate |].
  destruct (String.eqb_spec k "type") as [-> | _].
  - intros [= <-]. exists v. split; [now left | reflexivity].
  - intros H. destruct (IH H) as [v' [Hin Hv]]. exists v'. split; [now right | exact Hv].
Qed.

Lemma task_shows_type (tx : dict value) (t : string) :
  tx_type value py_str tx = Some t ->
  contains ("• type: " ++ t) (analysis_task value py_str tx) = true.
Proof.
  intros H. destruct (tx_type_item tx t H) as [v [Hin <-]].
  unfold analysis_task. apply contains_append_r, contains_append_l.
  unfold tx_str. apply contains_join.
  apply (in_map (fun kv => "• " ++ fst kv ++ ": " ++ py_str (snd kv)) _ _ Hin).
Qed.

(** C4, amended.  For a transaction whose type is PAYMENT, CASH_IN or
    DEBIT, on an accepted mode, the orchestrator sends the agent the
    production prompt, whose STEP 1 carries the gate, and the task text,
    which shows the type; it has no gate of its own.  When the agent's run
    follows the gate (it calls no tool and its last message states
    LEGITIMATE with 5%), the outcome is that message: decision LEGITIMATE,
    fraud probability 5%, one agent invocation and no tool call. *)
Theorem gate_holds_when_agent_follows_it
    (tx : dict value) (mode : string) (w : world) (t : string) :
  In (lower mode) modes ->
  tx_type value py_str tx = Some t ->
  In t Tools.low_risk_types ->
  follows_gate (fst (get_agent create_agent w) (messages_for value py_str tx)) ->
  let out := run_fraud_analysis create_agent value py_str format_exc tx mode w in
  contains gate_instruction PRODUCTION_PROMPT = true /\
  contains ("• type: " ++ t) (analysis_task value py_str tx) = true /\
  invocations (trace (snd out))
    = (invocations (trace w) ++ [messages_for value py_str tx])%list /\
  tools_called (trace (snd out)) = tools_called (trace w) /\
  exists text,
    fst out = Return text /\ states_verdict "LEGITIMATE" "5" text = true.
Proof.
  intros Hmode Htype _ [Hcalls [ms [m [Hend [Htruthy Hverdict]]]]] out.
  subst out.
  destruct (run_accepted_trace tx mode w Hmode) as [Hinv Htools].
  cbv zeta in Htools. rewrite Hcalls, app_nil_r in Htools.
  split; [vm_compute; reflexivity |].
  split; [apply task_shows_type, Htype |].
  split; [exact Hinv |]. split; [exact Htools |].
  exists (content_of m).
  rewrite (run_accepted tx mode w Hmode). cbv zeta. rewrite Hend.
  unfold extract_response, last_message. rewrite rev_unit.
  rewrite Htruthy. split; [reflexivity | exact Hverdict].
Qed.

End WithOracle.

(** C6, as the specification states it, fails on the mode PRODUCTION: it
    is not one of the four accepted values and nothing is raised. *)
Lemma upper_case_mode_is_not_rejected :
  ~ In "PRODUCTION" modes /\
  raises (fst (run_fraud_analysis Samples.gating_agent string Samples.show
                 Samples.short_traceback Samples.payment_tx "PRODUCTION"
                 Samples.fresh)) = false.
Proof.
  split; [| vm_compute; reflexivity].
  simpl. intros [H | [H | [H | [H | []]]]]; discriminate H.
Qed.

Lemma mode_check_ignores_letter_case_witness :
  In "balanced" modes /\ case_variant "BaLanced" "balanced" /\
  raises (fst (run_fraud_analysis Samples.gating_agent string Samples.show
                 Samples.short_traceback Samples.payment_tx "BaLanced"
                 Samples.fresh)) = false.
Proof.
  assert (Hin : In "balanced" modes) by (right; left; reflexivity).
  assert (Hv : case_variant "BaLanced" "balanced")
    by (simpl; repeat split; (now left) || (now right)).
  split; [exact Hin | split; [exact Hv |]].
  apply (mode_check_ignores_letter_case Samples.gating_agent string
           Samples.show Samples.short_traceback Samples.payment_tx
           "BaLanced" "balanced" Samples.fresh Hin Hv).
Defined.

Lemma agent_failure_returns_diagnostic_witness :
  In (lower "production") modes /\
  fst (run_fraud_analysis Samples.unreachable_agent string Samples.show
         Samples.short_traceback Samples.payment_tx "production" Samples.fresh)
  = Return (agent_error string Samples.show Samples.short_traceback
              (mkExn "APIConnectionError" "Connection error.")
              Samples.payment_tx).
Proof.
  assert (Hin : In (lower "production") modes) by (left; reflexivity).
  split; [exact Hin |].
  apply (agent_failure_returns_diagnostic Samples.unreachable_agent string
           Samples.show Samples.short_traceback Samples.payment_tx "production"
           Samples.fresh (mkExn "APIConnectionError" "Connection error.")
           Hin).
  reflexivity.
Defined.

(** C4, as the specification states it, fails on a PAYMENT: when the
    oracle cannot be reached the outcome is the diagnostic, which states
    no verdict; and an oracle that overlooks the gate has a tool called
    and FRAUD returned. *)
Lemma payment_is_not_gated_by_the_orchestrator :
  tx_type string Samples.show Samples.payment_tx = Some "PAYMENT" /\
  (exists text,
     fst (run_fraud_analysis Samples.unreachable_agent string Samples.show
            Samples.short_traceback Samples.payment_tx "production" Samples.fresh)
       = Return text /\
     states_verdict "LEGITIMATE" "5" text = false) /\
  (exists text,
     fst (run_fraud_analysis Samples.eager_agent string Samples.show
            Samples.short_traceback Samples.payment_tx "production" Samples.fresh)
       = Return text /\
     states_verdict "LEGITIMATE" "5" text = false /\
     states_verdict "FRAUD" "75" text = true) /\
  tools_called
    (trace (snd (run_fraud_analysis Samples.eager_agent string Samples.show
                   Samples.short_traceback Samples.payment_tx "production"
                   Samples.fresh)))
    = [mkToolCall "get_origin_history" "C1231006815"].
Proof.
  split; [reflexivity |].
  split; [eexists; split; [vm_compute; reflexivity | vm_compute; reflexivity] |].
  split; [eexists; split; [vm_compute; reflexivity
                          | split; vm_compute; reflexivity] |].
  vm_compute. reflexivity.
Qed.

Lemma gate_holds_when_agent_follows_it_witness :
  In (lower "production") modes /\
  tx_type string Samples.show Samples.payment_tx = Some "PAYMENT" /\
  In "PAYMENT" Tools.low_risk_types /\
  fst (run_fraud_analysis Samples.gating_agent string Samples.show
         Samples.short_traceback Samples.payment_tx "production" Samples.fresh)
    = Return (strip Samples.gate_reply) /\
  tools_called
    (trace (snd (run_fraud_analysis Samples.gating_agent string Samples.show
                   Samples.short_traceback Samples.payment_tx "production"
                   Samples.fresh))) = [].
Proof.
  assert (Hin : In (lower "production") modes) by (left; reflexivity).
  assert (Hty : tx_type string Samples.show Samples.payment_tx = Some "PAYMENT")
    by reflexivity.
  assert (Hlow : In "PAYMENT" Tools.low_risk_types) by (left; reflexivity).
  assert (Hgate : follows_gate
            (fst (get_agent Samples.gating_agent Samples.fresh)
               (messages_for string Samples.show Samples.payment_tx))).
  { split; [vm_compute; reflexivity |].
    exists (messages_for string Samples.show Samples.payment_tx),
           (AIMessage Samples.gate_reply).
    split; [vm_compute; reflexivity |].
    split; vm_compute; reflexivity. }
  pose proof (gate_holds_when_agent_follows_it Samples.gating_agent string
                Samples.show Samples.short_traceback Samples.payment_tx
                "production" Samples.fresh "PAYMENT" Hin Hty Hlow Hgate)
    as [_ [_ [_ [Htools _]]]].
  split; [exact Hin | split; [exact Hty | split; [exact Hlow |]]].
  split; [vm_compute; reflexivity | exact Htools].
Defined.

End AgentFacts.

(** ** More on the balance-anomaly tool *)

Module BalanceMoreFacts.
Import Py PyNum PyNumFacts StringFacts Tools MoreTools BalanceAnomalyFacts.


(** The points of the report, by the place of the computed ratio. *)
Lemma points_by_band (fdiv : Q -> Q -> Q) (a b : Q) (t : string) :
  ~ In t low_risk_types -> (0 < b)%Q ->
  let p := points (balance_signal (check_balance_anomaly fdiv a b t)) in
  let ratio := fdiv a b in
  ((2 < ratio)%Q /\ p = 2%Q) \/
  ((ratio <= 2)%Q /\ (1.5 < ratio)%Q /\ p = 1%Q) \/
  ((ratio <= 1.5)%Q /\ (1 < ratio)%Q /\ p = 0.5%Q) \/
  ((ratio <= 1)%Q /\ p = 0%Q).
Proof.
  intros Ht Hb p ratio. subst p.
  rewrite (ratio_branches fdiv a b t Ht Hb). cbv zeta. fold ratio.
  destruct (gt ratio 2) eqn:H2.
  { left. apply gt_true in H2. now split. }
  apply gt_false in H2.
  destruct (gt ratio 1.5) eqn:H15.
  { right; left. apply gt_true in H15. now repeat split. }
  apply gt_false in H15.
  destruct (gt ratio 1) eqn:H1.
  { right; right; left. apply gt_true in H1. now repeat split. }
  apply gt_false in H1.
  right; right; right. now split.
Qed.

Lemma points_without_ratio (fdiv : Q -> Q -> Q) (a b : Q) (t : string) :
  In t low_risk_types \/ (b <= 0)%Q ->
  points (balance_signal (check_balance_anomaly fdiv a b t)) = 0%Q.
Proof.
  unfold check_balance_anomaly. intros [Ht | Hb].
  - apply str_in_spec in Ht. now rewrite Ht.
  - destruct (str_in t low_risk_types); [reflexivity |].
    apply le_true in Hb. now rewrite Hb.
Qed.

(** Division is monotone in the dividend and antitone in a positive
    divisor; rounding to the nearest double keeps both, so the double
    quotient has them as the exact one does. *)
Lemma quotient_grows_with_dividend (a1 a2 b : Q) :
  (0 < b)%Q -> (a1 <= a2)%Q -> (a1 / b <= a2 / b)%Q.
Proof.
  intros Hb Ha. apply Qle_shift_div_l; [assumption |].
  assert (E : (a1 / b * b == a1)%Q) by (field; lra).
  now rewrite E.
Qed.

Lemma quotient_falls_with_divisor (a b1 b2 : Q) :
  (0 <= a)%Q -> (0 < b1)%Q -> (b1 <= b2)%Q -> (a / b2 <= a / b1)%Q.
Proof.
  intros Ha Hb1 Hb.
  assert (Hb2 : (0 < b2)%Q) by lra.
  apply Qle_shift_div_l; [assumption |].
  assert (E : (a / b2 * b1 == a * (b1 / b2))%Q) by (field; lra).
  rewrite E.
  assert (H1 : (b1 / b2 <= 1)%Q).
  { apply Qle_shift_div_r; [assumption | lra]. }
  nra.
Qed.

(** The score follows the computed quotient. *)
Lemma points_follow_the_quotient
    (fdiv : Q -> Q -> Q) (a1 b1 a2 b2 : Q) (t : string) :
  (0 < b1)%Q -> (0 < b2)%Q -> (fdiv a1 b1 <= fdiv a2 b2)%Q ->
  (points (balance_signal (check_balance_anomaly fdiv a1 b1 t))
   <= points (balance_signal (check_balance_anomaly fdiv a2 b2 t)))%Q.
Proof.
  intros Hb1 Hb2 Hq.
  destruct (in_dec string_dec t low_risk_types) as [Ht | Ht].
  { rewrite !points_without_ratio by now left. apply Qle_refl. }
  pose proof (points_by_band fdiv a1 b1 t Ht Hb1) as H1.
  pose proof (points_by_band fdiv a2 b2 t Ht Hb2) as H2.
  cbv zeta in H1, H2.
  destruct H1 as [[? ->] | [[? [? ->]] | [[? [? ->]] | [? ->]]]];
  destruct H2 as [[? ->] | [[? [? ->]] | [[? [? ->]] | [? ->]]]];
    lra.
Qed.

(** X1.  The balance-anomaly score never goes down when the amount goes
    up, for every balance and every type.  The division is any that does
    not decrease between the two amounts over a positive balance, as the
    rounded division of doubles does not. *)
Theorem balance_score_grows_with_amount
    (fdiv : Q -> Q -> Q) (a1 a2 b : Q) (t : string) :
  ((0 < b)%Q -> (a1 <= a2)%Q -> (fdiv a1 b <= fdiv a2 b)%Q) ->
  (a1 <= a2)%Q ->
  (points (balance_signal (check_balance_anomaly fdiv a1 b t))
   <= points (balance_signal (check_balance_anomaly fdiv a2 b t)))%Q.
Proof.
  intros Hmono Ha.
  destruct (Qlt_le_dec 0 b) as [Hb | Hb].
  - apply points_follow_the_quotient; auto.
  - rewrite !points_without_ratio by now right. apply Qle_refl.
Qed.

Lemma balance_score_grows_with_amount_witness :
  ((0 < 100)%Q -> (100 <= 250)%Q ->
   (Double.div 100 100 <= Double.div 250 100)%Q) /\
  (100 <= 250)%Q /\
  (points (balance_signal
             (check_balance_anomaly Double.div 100 100 "TRANSFER"))
   <= points (balance_signal
                (check_balance_anomaly Double.div 250 100 "TRANSFER")))%Q.
Proof.
  split; [intros _ _; vm_compute; discriminate |].
  split; [discriminate |].
  apply (balance_score_grows_with_amount Double.div 100 250 100 "TRANSFER").
  - intros _ _. vm_compute. discriminate.
  - discriminate.
Defined.

(** The exact division is such a division. *)
Lemma score_grows_with_amount_without_rounding (a1 a2 b : Q) (t : string) :
  (a1 <= a2)%Q ->
  (points (balance_signal (check_balance_anomaly Qdiv a1 b t))
   <= points (balance_signal (check_balance_anomaly Qdiv a2 b t)))%Q.
Proof.
  intros Ha.
  destruct (Qlt_le_dec 0 b) as [Hb | Hb].
  - apply points_follow_the_quotient; try assumption.
    now apply quotient_grows_with_dividend.
  - rewrite !points_without_ratio by now right. apply Qle_refl.
Qed.

(** X2.  For a non-negative amount the score never goes up when a
    positive balance goes up.  The division is any that does not
    increase between the two balances, as the rounded division of
    doubles does not. *)
Theorem balance_score_falls_with_balance
    (fdiv : Q -> Q -> Q) (a b1 b2 : Q) (t : string) :
  ((0 <= a)%Q -> (0 < b1)%Q -> (b1 <= b2)%Q ->
   (fdiv a b2 <= fdiv a b1)%Q) ->
  (0 <= a)%Q -> (0 < b1)%Q -> (b1 <= b2)%Q ->
  (points (balance_signal (check_balance_anomaly fdiv a b2 t))
   <= points (balance_signal (check_balance_anomaly fdiv a b1 t)))%Q.
Proof.
  intros Hmono Ha Hb1 Hb.
  assert (Hb2 : (0 < b2)%Q) by lra.
  apply points_follow_the_quotient; auto.
Qed.

Lemma balance_score_falls_with_balance_witness :
  ((0 <= 300)%Q -> (0 < 100)%Q -> (100 <= 250)%Q ->
   (Double.div 300 250 <= Double.div 300 100)%Q) /\
  (0 <= 300)%Q /\ (0 < 100)%Q /\ (100 <= 250)%Q /\
  (points (balance_signal
             (check_balance_anomaly Double.div 300 250 "CASH_OUT"))
   <= points (balance_signal
                (check_balance_anomaly Double.div 300 100 "CASH_OUT")))%Q.
Proof.
  split; [intros _ _ _; vm_compute; discriminate |].
  split; [discriminate | split; [reflexivity | split; [discriminate |]]].
  apply (balance_score_falls_with_balance Double.div 300 100 250 "CASH_OUT").
  - intros _ _ _. vm_compute. discriminate.
  - discriminate.
  - reflexivity.
  - discriminate.
Defined.

Lemma score_falls_with_balance_without_rounding
    (a b1 b2 : Q) (t : string) :
  (0 <= a)%Q -> (0 < b1)%Q -> (b1 <= b2)%Q ->
  (points (balance_signal (check_balance_anomaly Qdiv a b2 t))
   <= points (balance_signal (check_balance_anomaly Qdiv a b1 t)))%Q.
Proof.
  intros Ha Hb1 Hb.
  assert (Hb2 : (0 < b2)%Q) by lra.
  apply points_follow_the_quotient; try assumption.
  now apply quotient_falls_with_divisor.
Qed.

(** The fall stops at zero: a balance of 0 scores 0 where any small
    positive balance scores +2. *)
Example zero_balance_breaks_the_fall :
  balance_signal (check_balance_anomaly Double.div 300 0 "CASH_OUT") = "0" /\
  balance_signal
    (check_balance_anomaly Double.div 300 (Double.as_double 0.01) "CASH_OUT")
    = "+2".
Proof. split; vm_compute; reflexivity. Qed.



(** Scaling the amount and the balance by the same factor is such a case
    when the factor is a power of two; by ten it is not: 1.05 / 0.7 is
    moderate and 10.5 / 7.0 mild. *)
Example scaling_by_ten_changes_the_report :
  check_balance_anomaly Double.div
      (Double.as_double 1.05) (Double.as_double 0.7) "TRANSFER"
    = mkBalance ModerateAnomaly "+1" /\
  check_balance_anomaly Double.div 10.5 7 "TRANSFER"
    = mkBalance MildAnomaly "+0.5".
Proof. split; vm_compute; reflexivity. Qed.

End BalanceMoreFacts.

(** ** More on the history tools *)

Module ToolsMoreFacts.
Import Py PyNum PyNumFacts StringFacts Store Tools MoreTools OriginHistoryFacts.

(** X4.  An account is a merchant exactly when its id starts with the
    capital letter M: the report is the merchant one, -1, for such an id
    and the regular one, 0, for every other id, the empty id and an id in
    lower case included. *)
Theorem merchant_is_the_capital_m_prefix (dest_id : string) :
  (is_merchant_account dest_id = mkMerchant MerchantAccount "-1"
     <-> exists rest, dest_id = String "M" rest) /\
  (is_merchant_account dest_id = mkMerchant RegularAccount "0"
     <-> forall rest, dest_id <> String "M" rest) /\
  is_merchant_account "" = mkMerchant RegularAccount "0" /\
  is_merchant_account (String "m" dest_id) = mkMerchant RegularAccount "0".
Proof.
  assert (Hm : is_merchant_account (String "m" dest_id)
               = mkMerchant RegularAccount "0") by reflexivity.
  assert (Hiff : startswith dest_id "M" = true
                 <-> exists rest, dest_id = String "M" rest).
  { unfold startswith. split.
    - intros H. apply prefix_inv in H. exact H.
    - intros [rest ->]. apply (prefix_append "M" rest). }
  unfold is_merchant_account in *.
  destruct (startswith dest_id "M") eqn:Hs.
  - destruct (proj1 Hiff eq_refl) as [rest Hrest].
    split; [split; [intros _; now exists rest | reflexivity] |].
    split; [split; [discriminate | intros H; now specialize (H rest)] |].
    split; [reflexivity | exact Hm].
  - assert (Hno : forall rest, dest_id <> String "M" rest).
    { intros rest H. assert (Ht : false = true) by (apply Hiff; eauto).
      discriminate Ht. }
    split; [split; [discriminate | intros [rest H]; now apply Hno in H] |].
    split; [split; [intros _; exact Hno | reflexivity] |].
    split; [reflexivity | exact Hm].
Qed.

(** X5.  Whatever the inputs, the account-behaviour score is one of +2,
    -2, +1, -1 (never 0), the balance score one of 0, +0.5, +1, +2 and
    the destination score -1 or 0, so the three together lie between -3
    and +4. *)
Theorem tool_scores_are_bounded
    (sort_values_step_desc : DataFrame -> DataFrame) (fdiv : Q -> Q -> Q)
    (df : DataFrame) (origin_id : string) (n : Z) (amount oldbalanceOrg : Q)
    (tx_type dest_id : string) :
  let a := points (signal (get_origin_history sort_values_step_desc df origin_id n)) in
  let b := points (balance_signal
                     (check_balance_anomaly fdiv amount oldbalanceOrg tx_type)) in
  let c := points (merchant_signal (is_merchant_account dest_id)) in
  (a = 2 \/ a = -2 \/ a = 1 \/ a = -1)%Q /\
  (b = 0 \/ b = 0.5 \/ b = 1 \/ b = 2)%Q /\
  (c = -1 \/ c = 0)%Q /\
  (-3 <= a + b + c)%Q /\ (a + b + c <= 4)%Q.
Proof.
  intros a b c.
  assert (Ha : (a = 2 \/ a = -2 \/ a = 1 \/ a = -1)%Q).
  { subst a. unfold get_origin_history.
    repeat match goal with
           | |- context [if ?x then _ else _] => destruct x
           end; cbn; tauto. }
  assert (Hb : (b = 0 \/ b = 0.5 \/ b = 1 \/ b = 2)%Q).
  { subst b. unfold check_balance_anomaly.
    repeat match goal with
           | |- context [if ?x then _ else _] => destruct x
           end; cbn; tauto. }
  assert (Hc : (c = -1 \/ c = 0)%Q).
  { subst c. unfold is_merchant_account.
    destruct (startswith dest_id "M"); cbn; tauto. }
  split; [exact Ha | split; [exact Hb | split; [exact Hc |]]].
  clearbody a b c.
  destruct Ha as [-> | [-> | [-> | ->]]];
    destruct Hb as [-> | [-> | [-> | ->]]];
    destruct Hc as [-> | ->]; split; discriminate.
Qed.

(** X6.  The three history tools agree on what an unknown account is:
    for every window, amount and type, each gives its no-history answer
    exactly when the store has no row of the account. *)
Theorem tools_agree_on_unknown_account
    (sort_values_step_desc : DataFrame -> DataFrame) (np : float_ops)
    (df : DataFrame) (origin_id : string) (n : Z) (amount : Q)
    (tx_type : string) :
  let unknown := existsb (origin_mask origin_id) df = false in
  (get_origin_history sort_values_step_desc df origin_id n
     = mkHistory NoTransactionHistory "+2" <-> unknown) /\
  (get_account_statistics df origin_id = NoStatistics <-> unknown) /\
  (compare_to_account_average np df origin_id amount tx_type
     = mkAverage NewAccount "+1" <-> unknown).
Proof.
  cbv zeta.
  unfold get_origin_history, get_account_statistics, compare_to_account_average.
  destruct (existsb (origin_mask origin_id) df); cbn [negb].
  - repeat split; try discriminate;
      repeat match goal with
             | |- context [if ?x then _ else _] => destruct x
             end; discriminate.
  - repeat split; reflexivity.
Qed.



Lemma sum_col_permutation (col : TransactionRecord -> Z) (l l' : DataFrame) :
  Permutation l l' -> sum_col col l = sum_col col l'.
Proof.
  unfold sum_col. induction 1; simpl; lia.
Qed.

Lemma firstn_whole (k : nat) (l : DataFrame) :
  (List.length l <= k)%nat -> firstn k l = l.
Proof. apply firstn_all2. Qed.

(** X8.  When the window covers every row of the account, the history
    tool and the statistics tool judge the fraud rate alike: the history
    tool answers the risky-account branch exactly when the statistics
    tool reports the high risk level.  (A shorter window can disagree: it
    sees the most recent rows only.) *)
Theorem history_and_statistics_agree_on_full_window
    (sort_values_step_desc : DataFrame -> DataFrame) (df : DataFrame)
    (origin_id : string) (n : Z) :
  (forall l, Permutation (sort_values_step_desc l) l) ->
  len (filter (origin_mask origin_id) df) <= n ->
  (risk (get_origin_history sort_values_step_desc df origin_id n) = RiskyAccount
   <-> exists total fraud_count fraud_rate,
         get_account_statistics df origin_id
           = Statistics total fraud_count fraud_rate true).
Proof.
  intros Hperm Hn.
  unfold get_origin_history, get_account_statistics.
  destruct (existsb (origin_mask origin_id) df) eqn:Hany; cbn [negb].
  2: { split; [discriminate | intros [? [? [? H]]]; discriminate H]. }
  set (rows := filter (origin_mask origin_id) df) in *.
  assert (Hrecent : recent_of sort_values_step_desc df origin_id n
                    = sort_values_step_desc rows).
  { unfold recent_of, head. fold rows.
    pose proof (len_nonneg rows) as Hpos.
    destruct (Z.leb_spec 0 n); [| lia].
    apply firstn_whole.
    rewrite (Permutation_length (Hperm rows)). unfold len in Hn. lia. }
  assert (Hrate : fraud_rate_of (recent_of sort_values_step_desc df origin_id n)
                  = (if 0 <? len rows
                     then (inject_Z (sum_col isFraud rows)
                           / inject_Z (len rows) * 100)%Q
                     else 0%Q)).
  { rewrite Hrecent. unfold fraud_rate_of, fraud_count_of, len.
    now rewrite (Permutation_length (Hperm rows)),
                (sum_col_permutation isFraud _ _ (Hperm rows)). }
  cbv zeta. rewrite Hrate.
  destruct (gt _ 5) eqn:Hgt; cbn [risk].
  - split; [intros _; eauto | reflexivity].
  - split.
    + repeat match goal with
             | |- context [if ?x then _ else _] => destruct x
             end; discriminate.
    + intros [? [? [? H]]]. discriminate H.
Qed.

Lemma history_and_statistics_agree_on_full_window_witness :
  len (filter (origin_mask "C1") Samples.small_df) <= 10 /\
  (risk (get_origin_history insertion_sort_desc Samples.small_df "C1" 10)
     = RiskyAccount
   <-> exists total fraud_count fraud_rate,
         get_account_statistics Samples.small_df "C1"
           = Statistics total fraud_count fraud_rate true).
Proof.
  assert (H : len (filter (origin_mask "C1") Samples.small_df) <= 10)
    by (vm_compute; discriminate).
  split; [exact H |].
  apply (history_and_statistics_agree_on_full_window insertion_sort_desc
           Samples.small_df "C1" 10 insertion_sort_desc_permutes H).
Defined.

(** On a window of three the two tools part on an account whose only
    fraud is older than its three latest rows. *)
Example short_window_disagrees_with_statistics :
  get_origin_history insertion_sort_desc MoreSamples.old_fraud_df "C7" 3
    = mkHistory NormalBehavior "-1" /\
  get_account_statistics MoreSamples.old_fraud_df "C7"
    = Statistics 4 1 (100 # 4) true.
Proof. split; vm_compute; reflexivity. Qed.

(** X9.  A window that fetches nothing from an account that has rows - a
    window of 0, or a negative window that drops at least as many rows as
    the account has - is scored as limited history, +1, not as no
    history, +2. *)
Theorem empty_window_scores_limited_history
    (sort_values_step_desc : DataFrame -> DataFrame) (df : DataFrame)
    (origin_id : string) (n : Z) :
  (forall l, Permutation (sort_values_step_desc l) l) ->
  existsb (origin_mask origin_id) df = true ->
  n = 0 \/ (n < 0 /\ len (filter (origin_mask origin_id) df) <= - n) ->
  recent_of sort_values_step_desc df origin_id n = [] /\
  get_origin_history sort_values_step_desc df origin_id n
    = mkHistory LimitedHistory "+1".
Proof.
  intros Hperm Hany Hn.
  assert (Hempty : recent_of sort_values_step_desc df origin_id n = []).
  { unfold recent_of, head.
    set (rows := filter (origin_mask origin_id) df) in *.
    destruct Hn as [-> | [Hneg Hlen]]; [reflexivity |].
    destruct (Z.leb_spec 0 n); [lia |].
    rewrite (Permutation_length (Hperm rows)).
    unfold len in Hlen.
    replace (List.length rows - Z.to_nat (- n))%nat with 0%nat by lia.
    reflexivity. }
  split; [exact Hempty |].
  unfold get_origin_history. rewrite Hany, Hempty. reflexivity.
Qed.

Lemma empty_window_scores_limited_history_witness :
  existsb (origin_mask "C1") Samples.small_df = true /\
  get_origin_history insertion_sort_desc Samples.small_df "C1" (-4)
    = mkHistory LimitedHistory "+1".
Proof.
  split; [reflexivity |].
  apply (empty_window_scores_limited_history insertion_sort_desc
           Samples.small_df "C1" (-4) insertion_sort_desc_permutes).
  - reflexivity.
  - right. split; [lia | vm_compute; discriminate].
Defined.

End ToolsMoreFacts.

(** ** More on the comparison with the account average *)

Module AverageMoreFacts.
Import Py PyNum PyNumFacts Store Tools AccountAverageFacts.

(** A report other than the two no-baseline ones compares the amount with
    the bound. *)
Lemma compare_with_baseline
    (np : float_ops) (df : DataFrame) (origin_id : string) (amount : Q)
    (tx_type : string) :
  let same_type :=
    filter (fun r => String.eqb (type r) tx_type)
      (filter (origin_mask origin_id) df) in
  same_type <> [] ->
  compare_to_account_average np df origin_id amount tx_type =
    if fgt (Fin (as_operand np amount))
         (add np (mean np (map Store.amount same_type))
              (mul np (Fin 2) (std np (map Store.amount same_type))))
    then mkAverage UnusualAmount "+1"
    else mkAverage TypicalAmount "-1".
Proof.
  intros same_type Hrows. unfold compare_to_account_average.
  fold same_type.
  assert (Hany : existsb (origin_mask origin_id) df = true).
  { destruct same_type as [| r rest] eqn:E; [congruence |].
    apply existsb_exists. exists r.
    assert (Hin : In r same_type) by (rewrite E; now left).
    subst same_type. apply filter_In in Hin. destruct Hin as [Hin _].
    apply filter_In in Hin. exact Hin. }
  rewrite Hany. cbn [negb].
  destruct (Z.eqb_spec (len same_type) 0) as [Hlen | _]; [| reflexivity].
  apply OriginHistoryFacts.len_zero_nil in Hlen. congruence.
Qed.

(** X10.  An amount that is, as the comparison reads it, at or below the
    computed mean of the account's amounts of the type is never flagged
    as unusual, however many records there are.  The arithmetic is any
    in which a standard deviation is never negative, the double of a
    non-negative number is not negative and the sum with a non-negative
    number is not below the other term, as rounding to nearest has it. *)
Theorem amount_up_to_the_mean_is_typical
    (np : float_ops) (df : DataFrame) (origin_id : string) (amount : Q)
    (tx_type : string) (m : Q) :
  (forall xs s, Series_std np xs = Fin s -> (0 <= s)%Q) ->
  (forall s t, (0 <= s)%Q -> times np 2 s = Fin t -> (0 <= t)%Q) ->
  (forall a t u, (0 <= t)%Q -> plus np a t = Fin u -> (a <= u)%Q) ->
  mean np (map Store.amount
             (filter (fun r => String.eqb (type r) tx_type)
                (filter (origin_mask origin_id) df))) = Fin m ->
  (as_operand np amount <= m)%Q ->
  compare_to_account_average np df origin_id amount tx_type
    = mkAverage TypicalAmount "-1".
Proof.
  intros Hdev Htimes Hplus Hmean Hle.
  rewrite compare_with_baseline.
  2: { intros Hnil. rewrite Hnil in Hmean. discriminate Hmean. }
  rewrite Hmean.
  destruct (std np _) as [| s] eqn:Hstd; [reflexivity |].
  assert (Hs : (0 <= s)%Q).
  { unfold std in Hstd. destruct (_ <=? 1); [discriminate |].
    exact (Hdev _ _ Hstd). }
  unfold add, mul. cbn [lift2].
  destruct (times np 2 s) as [| t] eqn:Ht; [reflexivity |].
  cbn [lift2].
  destruct (plus np m t) as [| u] eqn:Hu; [reflexivity |].
  cbn [fgt].
  assert (Hgt : gt (as_operand np amount) u = false).
  { apply gt_false. apply Qle_trans with m; [exact Hle |].
    exact (Hplus m t u (Htimes s t Hs Ht) Hu). }
  now rewrite Hgt.
Qed.

Lemma isqrt_nonneg (q : Q) : (0 <= Samples.isqrt q)%Q.
Proof.
  unfold Samples.isqrt. change 0%Q with (inject_Z 0).
  rewrite <- Zle_Qle. apply Z.sqrt_nonneg.
Qed.

Lemma amount_up_to_the_mean_is_typical_witness :
  mean Samples.exact_ops
    (map Store.amount
       (filter (fun r => String.eqb (type r) "TRANSFER")
          (filter (origin_mask "C5") Samples.frequent_df)))
    = Fin ((10 + (30 + (50 + 0))) / inject_Z 3) /\
  (as_operand Samples.exact_ops 30 <= (10 + (30 + (50 + 0))) / inject_Z 3)%Q /\
  compare_to_account_average Samples.exact_ops Samples.frequent_df "C5"
    30 "TRANSFER" = mkAverage TypicalAmount "-1".
Proof.
  split; [reflexivity | split; [vm_compute; discriminate |]].
  apply (amount_up_to_the_mean_is_typical Samples.exact_ops
           Samples.frequent_df "C5" 30 "TRANSFER"
           ((10 + (30 + (50 + 0))) / inject_Z 3)).
  - intros xs s H. injection H as <-. apply isqrt_nonneg.
  - intros s t Hs H. injection H as <-. lra.
  - intros a t u Ht H. injection H as <-. lra.
  - reflexivity.
  - vm_compute. discriminate.
Defined.

(** X11.  An amount is flagged as unusual only when the store holds two
    records or more of the origin with the type: with none the answer is
    one of the two no-baseline reports, and with one the deviation is
    not-a-number. *)
Theorem unusual_needs_two_records
    (np : float_ops) (df : DataFrame) (origin_id : string) (amount : Q)
    (tx_type : string) :
  compared (compare_to_account_average np df origin_id amount tx_type)
    = UnusualAmount ->
  (2 <= List.length
          (filter (fun r => String.eqb (type r) tx_type)
             (filter (origin_mask origin_id) df)))%nat.
Proof.
  intros Hflag.
  unfold compare_to_account_average in Hflag.
  destruct (filter (fun r => String.eqb (type r) tx_type)
              (filter (origin_mask origin_id) df))
    as [| r [| r' rest]] eqn:Hrows.
  - destruct (negb (existsb (origin_mask origin_id) df));
      cbn in Hflag; discriminate Hflag.
  - destruct (negb (existsb (origin_mask origin_id) df));
      [cbn in Hflag; discriminate Hflag |].
    cbv zeta in Hflag. cbn [map] in Hflag.
    rewrite (std_single np) in Hflag.
    unfold add, mul in Hflag. cbn [lift2] in Hflag.
    rewrite lift2_nan_r in Hflag. cbn in Hflag. discriminate Hflag.
  - cbn [List.length]. lia.
Qed.

Lemma unusual_needs_two_records_witness :
  compared (compare_to_account_average Samples.exact_ops Samples.frequent_df
              "C5" 71 "TRANSFER") = UnusualAmount /\
  (2 <= List.length
          (filter (fun r => String.eqb (type r) "TRANSFER")
             (filter (origin_mask "C5") Samples.frequent_df)))%nat.
Proof.
  split; [vm_compute; reflexivity |].
  apply (unusual_needs_two_records Samples.exact_ops Samples.frequent_df
           "C5" 71 "TRANSFER").
  vm_compute. reflexivity.
Defined.

End AverageMoreFacts.

(** ** More on the orchestrator *)

Module AgentMoreFacts.
Import Py Prompts MorePrompts Agent Batch StringFacts AgentFacts.

(** An ASCII white space is a code point of one byte, and white space. *)
Lemma is_space_point (c : ascii) :
  is_space c = true ->
  width c = 1%nat /\ isspace (String c "") = true.
Proof.
  destruct c as [[] [] [] [] [] [] [] []]; vm_compute; intros H;
    first [discriminate H | split; reflexivity].
Qed.

Lemma code_points_one_byte (c : ascii) (rest : string) :
  width c = 1%nat ->
  code_points (String c rest) = String c "" :: code_points rest.
Proof.
  intros H. cbn [code_points]. rewrite H. reflexivity.
Qed.

Lemma dropwhile_all {A : Type} (p : A -> bool) (l : list A) :
  forallb p l = true -> dropwhile p l = [].
Proof.
  induction l as [| x l IH]; [reflexivity |].
  cbn [forallb dropwhile]. intros H. apply andb_true_iff in H.
  destruct H as [Hx Hl]. rewrite Hx. now apply IH.
Qed.

Lemma all_space_points (s : string) :
  all_space s = true -> forallb isspace (code_points s) = true.
Proof.
  induction s as [| c s IH]; [reflexivity |].
  cbn [all_space]. intros H. apply andb_true_iff in H.
  destruct H as [Hc Hs].
  destruct (is_space_point c Hc) as [Hw Hp].
  rewrite (code_points_one_byte c s Hw). cbn [forallb].
  rewrite Hp. now apply IH.
Qed.

Lemma strip_all_space (s : string) : all_space s = true -> strip s = "".
Proof.
  intros H. unfold strip.
  now rewrite (dropwhile_all isspace _ (all_space_points s H)).
Qed.

(** The white space that [strip] drops is Unicode's: a no-break space
    and an ideographic space go as a blank does, and a text of them only
    is blank. *)
Example strip_drops_unicode_space :
  strip (utf8 [194; 160]%nat) = "" /\
  strip (utf8 [227; 128; 128; 79; 75; 32; 194; 160]%nat) = "OK" /\
  strip (utf8 [195; 160; 32]%nat) = utf8 [195; 160]%nat.
Proof. repeat split; reflexivity. Qed.

Lemma dict_get_modes (key : string) :
  (In key modes -> dict_get PROMPTS key = Some PRODUCTION_PROMPT) /\
  (~ In key modes -> dict_get PROMPTS key = None).
Proof.
  split.
  - simpl. intros [<- | [<- | [<- | [<- | []]]]]; reflexivity.
  - intros Hout. unfold PROMPTS. cbn [dict_get].
    repeat match goal with
           | |- context [String.eqb ?k key] =>
               destruct (String.eqb_spec k key) as [E | _];
               [exfalso; apply Hout; rewrite <- E; simpl; tauto |]
           end.
    reflexivity.
Qed.

Section WithOracle.

Variable create_agent : agent.
Variable value : Type.
Variable py_str : value -> string.
Variable format_exc : exn -> string.

(** X12.  The prompt selection and the orchestrator accept the same
    modes, and the selection is the lookup of the lowercased mode in the
    table [PROMPTS]: an accepted mode gets the entry of the table, which
    is the production prompt for each of the four keys, and any other
    mode is rejected by both. *)
Theorem prompt_selection_is_the_table_lookup
    (tx : dict value) (mode : string) (w : world) :
  (forall p, get_system_prompt mode = Return p
             <-> dict_get PROMPTS (lower mode) = Some p) /\
  (raises (get_system_prompt mode) = true
   <-> dict_get PROMPTS (lower mode) = None) /\
  raises (get_system_prompt mode)
    = raises (fst (run_fraud_analysis create_agent value py_str format_exc
                     tx mode w)) /\
  map fst PROMPTS = modes /\
  (forall k p, In (k, p) PROMPTS -> p = PRODUCTION_PROMPT).
Proof.
  destruct (dict_get_modes (lower mode)) as [Hin Hout].
  unfold get_system_prompt.
  destruct (str_in (lower mode) modes) eqn:Hmode.
  - pose proof (proj1 (accepted_iff mode) Hmode) as Hacc.
    rewrite (Hin Hacc).
    split; [intros p; split; intros [= <-]; reflexivity |].
    split; [split; discriminate |].
    split.
    { rewrite (run_accepted create_agent value py_str format_exc tx mode w Hacc).
      cbv zeta. now destruct (extract_response _). }
    split; [reflexivity |].
    simpl. intros k p [[= _ <-] | [[= _ <-] | [[= _ <-] | [[= _ <-] | []]]]];
      reflexivity.
  - assert (Hrej : ~ In (lower mode) modes).
    { intros H. apply accepted_iff in H. congruence. }
    rewrite (Hout Hrej).
    split; [intros p; split; discriminate |].
    split; [split; reflexivity |].
    split.
    { now rewrite (run_rejected create_agent value py_str format_exc tx mode w Hrej). }
    split; [reflexivity |].
    simpl. intros k p [[= _ <-] | [[= _ <-] | [[= _ <-] | [[= _ <-] | []]]]];
      reflexivity.
Qed.

(** X13.  The four accepted modes are one behaviour: on any two accepted
    modes, in any letter case, the orchestrator does the same thing and
    returns the same text. *)
Theorem accepted_modes_behave_alike
    (tx : dict value) (mode mode' : string) (w : world) :
  In (lower mode) modes -> In (lower mode') modes ->
  run_fraud_analysis create_agent value py_str format_exc tx mode w
    = run_fraud_analysis create_agent value py_str format_exc tx mode' w.
Proof.
  intros H H'.
  now rewrite (run_accepted create_agent value py_str format_exc tx mode w H),
              (run_accepted create_agent value py_str format_exc tx mode' w H').
Qed.

Lemma agent_error_not_empty (e : exn) (tx : dict value) :
  agent_error value py_str format_exc e tx <> "".
Proof. unfold agent_error. cbn [append]. discriminate. Qed.

(** X14.  On an accepted mode the orchestrator always returns a text that
    is not empty: the agent's last message when it has one that is not
    blank, and otherwise a fixed text - [Error: No response from agent.]
    for a result without messages, [No response from agent.] for a blank
    last message - or the diagnostic, which is what an empty list of
    messages leads to (an index error inside the handler's scope). *)
Theorem analysis_text_is_never_empty
    (tx : dict value) (mode : string) (w : world) :
  In (lower mode) modes ->
  let run := fst (get_agent create_agent w) (messages_for value py_str tx) in
  exists text,
    fst (run_fraud_analysis create_agent value py_str format_exc tx mode w)
      = Return text /\
    text <> "" /\
    (ending run = Result None -> text = "Error: No response from agent.") /\
    (ending run = Result (Some []) ->
       text = agent_error value py_str format_exc
                (IndexError "list index out of range") tx) /\
    (forall ms c, ending run = Result (Some (ms ++ [AIMessage c])%list) ->
       (all_space c = true -> text = "No response from agent.") /\
       (strip c = "" -> text = "No response from agent.") /\
       (strip c <> "" -> text = strip c)).
Proof.
  intros Hmode run.
  rewrite (run_accepted create_agent value py_str format_exc tx mode w Hmode).
  cbv zeta. fold run.
  destruct (ending run) as [e | [ms |]] eqn:Hend; cbn [extract_response].
  - eexists. split; [reflexivity |]. split; [apply agent_error_not_empty |].
    repeat split; try discriminate.
    all: intros; discriminate.
  - unfold last_message.
    destruct (rev ms) as [| m rest] eqn:Hrev.
    + eexists. split; [reflexivity |]. split; [apply agent_error_not_empty |].
      split; [discriminate |]. split; [reflexivity |].
      intros ms' c [= ->]. rewrite rev_unit in Hrev. discriminate Hrev.
    + eexists. split; [reflexivity |].
      split.
      { destruct (content_of m) eqn:Hc; cbn [truthy]; discriminate. }
      split; [discriminate |].
      split.
      { intros [= ->]. discriminate Hrev. }
      intros ms' c [= ->]. rewrite rev_unit in Hrev.
      injection Hrev as <- _. cbn [content_of]. split; [| split].
      * intros Hblank. now rewrite (strip_all_space c Hblank).
      * intros Hblank. now rewrite Hblank.
      * intros Hc. destruct (strip c); [congruence | reflexivity].
  - eexists. split; [reflexivity |]. split; [discriminate |].
    repeat split; try discriminate.
    all: intros; discriminate.
Qed.

End WithOracle.

Lemma accepted_modes_behave_alike_witness :
  In (lower "production") modes /\ In (lower "AGGRESSIVE") modes /\
  run_fraud_analysis Samples.gating_agent string Samples.show
    Samples.short_traceback Samples.payment_tx "production" Samples.fresh
  = run_fraud_analysis Samples.gating_agent string Samples.show
      Samples.short_traceback Samples.payment_tx "AGGRESSIVE" Samples.fresh.
Proof.
  assert (H : In (lower "production") modes) by (left; reflexivity).
  assert (H' : In (lower "AGGRESSIVE") modes)
    by (right; right; right; left; reflexivity).
  split; [exact H | split; [exact H' |]].
  apply (accepted_modes_behave_alike Samples.gating_agent string Samples.show
           Samples.short_traceback Samples.payment_tx "production" "AGGRESSIVE"
           Samples.fresh H H').
Defined.

Lemma analysis_text_is_never_empty_witness :
  In (lower "production") modes /\
  exists text,
    fst (run_fraud_analysis Samples.unreachable_agent string Samples.show
           Samples.short_traceback Samples.payment_tx "production" Samples.fresh)
      = Return text /\
    text <> "".
Proof.
  assert (H : In (lower "production") modes) by (left; reflexivity).
  split; [exact H |].
  destruct (analysis_text_is_never_empty Samples.unreachable_agent string
              Samples.show Samples.short_traceback Samples.payment_tx
              "production" Samples.fresh H) as [text [Hret [Hne _]]].
  exists text. split; assumption.
Defined.

End AgentMoreFacts.

(** ** Batch analysis *)

Module BatchFacts.
Import Py Prompts Agent Batch StringFacts AgentFacts.

Lemma creations_app (a b : list event) :
  creations (a ++ b) = (creations a + creations b)%nat.
Proof.
  induction a as [| [| ms | c] a IH]; simpl; try exact IH;
    [reflexivity | now rewrite IH].
Qed.

Lemma creations_map (cs : list tool_call) :
  creations (map ToolCalled cs) = 0%nat.
Proof. induction cs as [| c cs IH]; simpl; [reflexivity | exact IH]. Qed.

Section WithOracle.

Variable create_agent : agent.
Variable value : Type.
Variable py_str : value -> string.
Variable format_exc : exn -> string.

(** One accepted call: it returns a text, leaves an agent in [_agent],
    builds one only when there was none, and invokes it once. *)
Lemma run_accepted_step (tx : dict value) (mode : string) (w : world) :
  In (lower mode) modes ->
  exists text w',
    run_fraud_analysis create_agent value py_str format_exc tx mode w
      = (Return text, w') /\
    _agent w' = Some (fst (get_agent create_agent w)) /\
    creations (trace w')
      = (creations (trace w)
         + match _agent w with None => 1 | Some _ => 0 end)%nat /\
    invocations (trace w')
      = (invocations (trace w) ++ [messages_for value py_str tx])%list.
Proof.
  intros Hmode.
  pose proof (run_accepted_trace create_agent value py_str format_exc
                tx mode w Hmode) as [Hinv _].
  rewrite (run_accepted create_agent value py_str format_exc tx mode w Hmode)
    in Hinv |- *.
  cbv zeta in Hinv |- *.
  set (r := fst (get_agent create_agent w) (messages_for value py_str tx)) in *.
  assert (Hworld :
    _agent (log (AgentInvoked (messages_for value py_str tx)
                 :: map ToolCalled (calls r)) (snd (get_agent create_agent w)))
      = Some (fst (get_agent create_agent w)) /\
    creations (trace (log (AgentInvoked (messages_for value py_str tx)
                           :: map ToolCalled (calls r))
                        (snd (get_agent create_agent w))))
      = (creations (trace w)
         + match _agent w with None => 1 | Some _ => 0 end)%nat).
  { unfold get_agent, log. destruct (_agent w) as [a |] eqn:Ha; cbn.
    - rewrite Ha. split; [reflexivity |].
      rewrite creations_app. cbn. rewrite creations_map. lia.
    - split; [reflexivity |].
      rewrite !creations_app. cbn. rewrite creations_map. lia. }
  destruct Hworld as [Hag Hcr].
  destruct (extract_response (ending r)); cbn [snd] in Hinv;
    eexists; eexists; (split; [reflexivity |]); now repeat split.
Qed.

Lemma analyze_from_accepted (txs : list (dict value)) (mode : string) :
  In (lower mode) modes ->
  forall (i : Z) (w : world),
  exists items w',
    analyze_from create_agent value py_str format_exc i txs mode w
      = (Return items, w') /\
    map (transaction value) items = txs /\
    map (index value) items = map (fun k => i + Z.of_nat k) (seq 0 (List.length txs)) /\
    invocations (trace w')
      = (invocations (trace w) ++ map (messages_for value py_str) txs)%list /\
    creations (trace w')
      = (creations (trace w)
         + match _agent w, txs with
           | None, _ :: _ => 1
           | _, _ => 0
           end)%nat /\
    (txs <> [] -> _agent w' <> None).
Proof.
  intros Hmode. induction txs as [| tx txs IH]; intros i w.
  - exists [], w. cbn. rewrite app_nil_r.
    repeat split; try reflexivity; try congruence.
    destruct (_agent w); lia.
  - destruct (run_accepted_step tx mode w Hmode)
      as [text [w1 [Hrun [Hag [Hcr Hinv]]]]].
    destruct (IH (i + 1) w1) as [items [w2 [Hrest [Htx [Hidx [Hinv2 [Hcr2 _]]]]]]].
    exists (mkItem value tx text i :: items), w2.
    cbn [analyze_from]. rewrite Hrun, Hrest.
    split; [reflexivity |].
    split; [cbn; now rewrite Htx |].
    split.
    { cbn [map List.length seq index]. rewrite Hidx, <- seq_shift, map_map.
      f_equal; [lia |]. apply map_ext. intros k. lia. }
    split.
    { rewrite Hinv2, Hinv. cbn [map]. now rewrite <- app_assoc. }
    split.
    { rewrite Hcr2, Hcr, Hag. destruct (_agent w); destruct txs; lia. }
    intros _ Hnone.
    assert (Hkeep : _agent w2 <> None).
    { destruct txs as [| tx' txs'].
      - cbn in Hrest. injection Hrest as _ <-. rewrite Hag. discriminate.
      - destruct (IH (i + 1) w1) as [? [? [Hrest' [_ [_ [_ [_ Hsome]]]]]]].
        rewrite Hrest in Hrest'. injection Hrest' as _ <-.
        apply Hsome. discriminate. }
    contradiction.
Qed.

(** X15.  On an accepted mode a batch is analysed to the end whatever the
    agent does on each item (a failure of the agent gives that item its
    diagnostic and the loop goes on): the result has one entry per
    transaction, in the order given, numbered from 0, and the agent is
    invoked once per transaction, in that order. *)
Theorem batch_keeps_every_transaction_in_order
    (transactions : list (dict value)) (mode : string) (w : world) :
  In (lower mode) modes ->
  exists items,
    fst (analyze_batch create_agent value py_str format_exc transactions mode w)
      = Return items /\
    map (transaction value) items = transactions /\
    map (index value) items
      = map Z.of_nat (seq 0 (List.length transactions)) /\
    invocations
      (trace (snd (analyze_batch create_agent value py_str format_exc
                     transactions mode w)))
      = (invocations (trace w)
         ++ map (messages_for value py_str) transactions)%list.
Proof.
  intros Hmode. unfold analyze_batch.
  destruct (analyze_from_accepted transactions mode Hmode 0 w)
    as [items [w' [Hrun [Htx [Hidx [Hinv _]]]]]].
  exists items. rewrite Hrun. cbn [fst snd].
  repeat split; assumption.
Qed.

(** X16.  The agent is a singleton: over a whole batch it is built at most
    once, and only when the process had none, and once a transaction has
    been analysed the process has one. *)
Theorem batch_builds_the_agent_at_most_once
    (transactions : list (dict value)) (mode : string) (w : world) :
  In (lower mode) modes ->
  let w' := snd (analyze_batch create_agent value py_str format_exc
                   transactions mode w) in
  creations (trace w')
    = (creations (trace w)
       + match _agent w, transactions with
         | None, _ :: _ => 1
         | _, _ => 0
         end)%nat /\
  (transactions <> [] -> _agent w' <> None).
Proof.
  intros Hmode. unfold analyze_batch.
  destruct (analyze_from_accepted transactions mode Hmode 0 w)
    as [items [w' [Hrun [_ [_ [_ [Hcr Hag]]]]]]].
  cbv zeta. rewrite Hrun. cbn [snd]. split; assumption.
Qed.

(** X17.  The mode is checked by the first analysis, not by the batch: on
    a mode that is not accepted a batch with a transaction raises the
    configuration error with nothing done, and the empty batch returns the
    empty list without any error. *)
Theorem batch_checks_the_mode_on_the_first_item
    (transactions : list (dict value)) (mode : string) (w : world) :
  ~ In (lower mode) modes ->
  (transactions = [] ->
     analyze_batch create_agent value py_str format_exc transactions mode w
       = (Return [], w)) /\
  (transactions <> [] ->
     raises (fst (analyze_batch create_agent value py_str format_exc
                    transactions mode w)) = true /\
     snd (analyze_batch create_agent value py_str format_exc
            transactions mode w) = w).
Proof.
  intros Hmode. unfold analyze_batch. split.
  - intros ->. reflexivity.
  - destruct transactions as [| tx rest]; [congruence |]. intros _.
    cbn [analyze_from].
    rewrite (run_rejected create_agent value py_str format_exc tx mode w Hmode).
    split; reflexivity.
Qed.

End WithOracle.

Lemma batch_keeps_every_transaction_in_order_witness :
  In (lower "production") modes /\
  exists items,
    fst (analyze_batch Samples.unreachable_agent string Samples.show
           Samples.short_traceback
           [Samples.payment_tx; MoreSamples.cash_out_tx] "production"
           Samples.fresh) = Return items /\
    map (transaction string) items
      = [Samples.payment_tx; MoreSamples.cash_out_tx].
Proof.
  assert (H : In (lower "production") modes) by (left; reflexivity).
  split; [exact H |].
  destruct (batch_keeps_every_transaction_in_order Samples.unreachable_agent
              string Samples.show Samples.short_traceback
              [Samples.payment_tx; MoreSamples.cash_out_tx] "production"
              Samples.fresh H) as [items [Hrun [Htx _]]].
  exists items. split; assumption.
Defined.

Lemma batch_builds_the_agent_at_most_once_witness :
  In (lower "production") modes /\
  creations
    (trace (snd (analyze_batch Samples.gating_agent string Samples.show
                   Samples.short_traceback
                   [Samples.payment_tx; MoreSamples.cash_out_tx] "production"
                   Samples.fresh))) = 1%nat.
Proof.
  assert (H : In (lower "production") modes) by (left; reflexivity).
  split; [exact H |].
  apply (batch_builds_the_agent_at_most_once Samples.gating_agent string
           Samples.show Samples.short_traceback
           [Samples.payment_tx; MoreSamples.cash_out_tx] "production"
           Samples.fresh H).
Defined.

Lemma batch_checks_the_mode_on_the_first_item_witness :
  ~ In (lower "strict") modes /\
  analyze_batch Samples.gating_agent string Samples.show
    Samples.short_traceback [] "strict" Samples.fresh
  = (Return [], Samples.fresh).
Proof.
  assert (H : ~ In (lower "strict") modes).
  { simpl. intros [E | [E | [E | [E | []]]]]; discriminate E. }
  split; [exact H |].
  apply (batch_checks_the_mode_on_the_first_item Samples.gating_agent string
           Samples.show Samples.short_traceback [] "strict" Samples.fresh H).
  reflexivity.
Defined.

End BatchFacts.

(** ** More on the loader *)

Module LoaderMoreFacts.
Import Py PyNum PyNumFacts StringFacts Store Loader MoreLoader ToolASpec.
Import LoaderFacts.

Lemma relabel_length (from : Z) (l : DataFrame) :
  List.length (relabel from l) = List.length l.
Proof.
  revert from. induction l as [| r l IH]; intros from; simpl;
    [reflexivity | now rewrite IH].
Qed.

Lemma relabel_columns (from : Z) (l : DataFrame) :
  map columns (relabel from l) = map columns l.
Proof.
  revert from. induction l as [| r l IH]; intros from; simpl;
    [reflexivity | now rewrite IH].
Qed.

Lemma relabel_index (from : Z) (l : DataFrame) :
  map index (relabel from l)
    = map (fun k => from + Z.of_nat k) (seq 0 (List.length l)).
Proof.
  revert from. induction l as [| r l IH]; intros from; [reflexivity |].
  cbn [relabel map List.length seq index]. rewrite IH, <- seq_shift, map_map.
  f_equal; [lia |]. apply map_ext. intros k. lia.
Qed.

Lemma relabel_twice (from : Z) (l : DataFrame) :
  relabel from (relabel from l) = relabel from l.
Proof.
  revert from. induction l as [| r l IH]; intros from; simpl;
    [reflexivity | now rewrite IH].
Qed.

Lemma relabel_column (col : TransactionRecord -> Z) (from : Z) (l : DataFrame) :
  (forall r, col r = col (columns r)) ->
  map col (relabel from l) = map col l.
Proof.
  intros Hcol.
  assert (H : forall d, map col d = map col (map columns d)).
  { intros d. rewrite map_map. apply map_ext, Hcol. }
  now rewrite (H (relabel from l)), relabel_columns, <- H.
Qed.

Section WithGenerator.

Variable rng : Type.
Variable seed_rng : Z -> rng.
Variable draw : rng -> Q -> DataFrame -> DataFrame * rng.

(** Whatever a loader returns left [reset_index] last. *)
Lemma loaders_end_with_reset
    (dir : data_dir) (ty : string) (sample_frac : option Q) (g : rng)
    (rows : DataFrame) :
  fst (load_data rng seed_rng draw dir sample_frac g) = Return rows \/
  fst (load_data_by_type rng seed_rng draw dir ty sample_frac g) = Return rows \/
  fst (load_fraud_only rng seed_rng draw dir sample_frac g) = Return rows ->
  exists d, rows = reset_index d.
Proof.
  unfold load_data_by_type, load_fraud_only.
  rewrite !load_data_dataset. unfold _load_parquet, sample.
  destruct (dataset_of dir) as [df |]; cbn.
  - intros [H | [H | H]]; revert H;
      destruct sample_frac as [f |]; cbn;
      repeat match goal with
             | |- context [if ?x then _ else _] => destruct x; cbn
             end;
      intros [= <-]; eexists; reflexivity.
  - intros [H | [H | H]]; discriminate H.
Qed.

(** X18.  Every frame a loader returns - [load_data], [load_data_by_type]
    or [load_fraud_only], sampled or not - is labelled 0, 1, 2, ... in
    the order of its rows, so resetting its index again changes nothing. *)
Theorem loaded_frames_are_labelled_from_zero
    (dir : data_dir) (ty : string) (sample_frac : option Q) (g : rng)
    (rows : DataFrame) :
  fst (load_data rng seed_rng draw dir sample_frac g) = Return rows \/
  fst (load_data_by_type rng seed_rng draw dir ty sample_frac g) = Return rows \/
  fst (load_fraud_only rng seed_rng draw dir sample_frac g) = Return rows ->
  map index rows = map Z.of_nat (seq 0 (List.length rows)) /\
  reset_index rows = rows.
Proof.
  intros H. destruct (loaders_end_with_reset dir ty sample_frac g rows H)
    as [d ->].
  unfold reset_index. split.
  - rewrite relabel_index, relabel_length. apply map_ext. intros k. lia.
  - apply relabel_twice.
Qed.

(** X19.  Without a sampling fraction [load_data] returns the whole
    frame of the parquet file, or of the CSV file when there is no parquet
    file: the same rows, in the same order, relabelled, with the
    process-wide generator untouched.  It raises the file-not-found error
    exactly when neither file is there, whatever the fraction. *)
Theorem load_data_without_sampling_returns_the_file
    (dir : data_dir) (sample_frac : option Q) (g : rng) :
  (forall df, dataset_of dir = Some df ->
     load_data rng seed_rng draw dir None g = (Return (reset_index df), g) /\
     map columns (reset_index df) = map columns df) /\
  (forall parquet, parquet_file dir = Some parquet ->
     dataset_of dir = Some parquet) /\
  (fst (load_data rng seed_rng draw dir sample_frac g)
     = Raise (not_found dir)
   <-> parquet_file dir = None /\ csv_file dir = None).
Proof.
  split; [| split].
  - intros df Hdf. rewrite load_data_dataset, Hdf.
    split; [reflexivity | apply relabel_columns].
  - intros parquet Hp. unfold dataset_of. now rewrite Hp.
  - rewrite load_data_dataset. unfold dataset_of, _load_parquet, sample.
    destruct (parquet_file dir) as [p |]; [| destruct (csv_file dir) as [c |]].
    + split; [| intros [H _]; discriminate H].
      destruct sample_frac as [f |]; cbn;
        [destruct (negb _); cbn |]; discriminate.
    + split; [| intros [_ H]; discriminate H].
      destruct sample_frac as [f |]; cbn;
        [destruct (negb _); cbn |]; discriminate.
    + split; [now split | reflexivity].
Qed.

Lemma filter_reset_all (p : TransactionRecord -> bool) (l : DataFrame) :
  (forall r, p r = p (columns r)) ->
  Forall (fun r => p r = true) l ->
  Forall (fun r => p r = true) (reset_index l).
Proof.
  intros Hp Hall. unfold reset_index. generalize 0.
  induction Hall as [| r l Hr _ IH]; intros from; simpl; constructor.
  - rewrite Hp. cbn [columns step type amount nameOrig oldbalanceOrg
      newbalanceOrig nameDest oldbalanceDest newbalanceDest isFraud
      isFlaggedFraud]. rewrite Hp in Hr. exact Hr.
  - apply IH.
Qed.

(** A test on the columns picks the same rows before and after a
    relabelling. *)
Lemma filter_relabel (p : TransactionRecord -> bool) (l : DataFrame) :
  (forall r, p r = p (columns r)) ->
  forall from k,
    relabel from (filter p (relabel k l)) = relabel from (filter p l).
Proof.
  intros Hp. induction l as [| r l IH]; intros from k; [reflexivity |].
  cbn [relabel filter].
  assert (E : p (mkRecord k (step r) (type r) (amount r) (nameOrig r)
                   (oldbalanceOrg r) (newbalanceOrig r) (nameDest r)
                   (oldbalanceDest r) (newbalanceDest r) (isFraud r)
                   (isFlaggedFraud r)) = p r).
  { rewrite Hp, (Hp r). reflexivity. }
  rewrite E. destruct (p r); cbn [relabel]; now rewrite IH.
Qed.

Lemma filter_all (p : TransactionRecord -> bool) (l : DataFrame) :
  Forall (fun r => p r = true) (filter p l).
Proof.
  apply Forall_forall. intros r Hr. apply filter_In in Hr. tauto.
Qed.

(** X20.  [load_fraud_only] returns fraud rows only and
    [load_data_by_type] rows of the asked type only, without sampling or
    with a fraction from 0 to 1 (for a draw that picks its rows from the
    frame it is given); without sampling they return all such rows of the
    file, in order. *)
Theorem filtered_loaders_return_matching_rows
    (dir : data_dir) (ty : string) (sample_frac : option Q) (g : rng)
    (df : DataFrame) :
  (forall s f d, incl (fst (draw s f d)) d) ->
  (forall f, sample_frac = Some f -> (0 <= f)%Q /\ (f <= 1)%Q) ->
  dataset_of dir = Some df ->
  (exists rows,
     fst (load_fraud_only rng seed_rng draw dir sample_frac g) = Return rows /\
     Forall (fun r => isFraud r = 1) rows) /\
  (exists rows,
     fst (load_data_by_type rng seed_rng draw dir ty sample_frac g) = Return rows /\
     Forall (fun r => type r = ty) rows) /\
  fst (load_fraud_only rng seed_rng draw dir None g)
    = Return (reset_index (filter (fun r => isFraud r =? 1) df)) /\
  fst (load_data_by_type rng seed_rng draw dir ty None g)
    = Return (reset_index (filter (fun r => String.eqb (type r) ty) df)).
Proof.
  intros Hdraw _ Hdf.
  assert (Hsub : forall (p : TransactionRecord -> bool) s f d,
            Forall (fun r => p r = true) d ->
            Forall (fun r => p r = true) (fst (draw s f d))).
  { intros p s f d Hd. rewrite Forall_forall in *.
    intros r Hr. apply Hd, (Hdraw s f d), Hr. }
  unfold load_fraud_only, load_data_by_type.
  rewrite !load_data_dataset, Hdf. unfold _load_parquet, sample.
  assert (Hfraud : forall d : DataFrame,
            Forall (fun r => (isFraud r =? 1) = true) d ->
            Forall (fun r => isFraud r = 1) (reset_index d)).
  { intros d Hd.
    apply (filter_reset_all (fun r => isFraud r =? 1)) in Hd; [| reflexivity].
    eapply Forall_impl; [| exact Hd]. intros r. apply Z.eqb_eq. }
  assert (Htype : forall d : DataFrame,
            Forall (fun r => String.eqb (type r) ty = true) d ->
            Forall (fun r => type r = ty) (reset_index d)).
  { intros d Hd.
    apply (filter_reset_all (fun r => String.eqb (type r) ty)) in Hd;
      [| reflexivity].
    eapply Forall_impl; [| exact Hd]. intros r. apply String.eqb_eq. }
  split; [| split; [| split]].
  3: { cbn. unfold reset_index. now rewrite filter_relabel. }
  3: { cbn. unfold reset_index. now rewrite filter_relabel. }
  - destruct sample_frac as [f |]; cbn; eexists; (split; [reflexivity |]).
    + apply Hfraud, Hsub, filter_all.
    + apply Hfraud, filter_all.
  - destruct sample_frac as [f |]; cbn; eexists; (split; [reflexivity |]).
    + apply Htype, Hsub, filter_all.
    + apply Htype, filter_all.
Qed.

End WithGenerator.

Lemma counter_draw_picks_rows (s : Z) (f : Q) (d : DataFrame) :
  incl (fst (Samples.counter_draw s f d)) d.
Proof.
  unfold Samples.counter_draw, Samples.rotate. cbn [fst].
  intros x Hx. apply OriginHistoryFacts.firstn_subset in Hx.
  rewrite <- (firstn_skipn (Nat.modulo (Z.to_nat s) (List.length d)) d).
  apply in_app_or in Hx. apply in_or_app. tauto.
Qed.

Lemma loaded_frames_are_labelled_from_zero_witness :
  fst (load_data Z Samples.counter_seed Samples.counter_draw
         Samples.both_files (Some 0.5%Q) 0)
    = Return (reset_index (fst (Samples.counter_draw 42 0.5 Samples.small_df))) /\
  reset_index (reset_index (fst (Samples.counter_draw 42 0.5 Samples.small_df)))
    = reset_index (fst (Samples.counter_draw 42 0.5 Samples.small_df)).
Proof.
  assert (H : fst (load_data Z Samples.counter_seed Samples.counter_draw
                     Samples.both_files (Some 0.5%Q) 0)
              = Return (reset_index
                          (fst (Samples.counter_draw 42 0.5 Samples.small_df))))
    by reflexivity.
  split; [exact H |].
  apply (loaded_frames_are_labelled_from_zero Z Samples.counter_seed
           Samples.counter_draw Samples.both_files "TRANSFER" (Some 0.5%Q) 0).
  left. exact H.
Defined.

Lemma filtered_loaders_return_matching_rows_witness :
  dataset_of Samples.both_files = Some Samples.small_df /\
  fst (load_fraud_only Z Samples.counter_seed Samples.counter_draw
         Samples.both_files None 0)
    = Return (reset_index (filter (fun r => isFraud r =? 1) Samples.small_df)).
Proof.
  split; [reflexivity |].
  apply (filtered_loaders_return_matching_rows Z Samples.counter_seed
           Samples.counter_draw Samples.both_files "TRANSFER" None 0
           Samples.small_df counter_draw_picks_rows).
  - intros f H. discriminate H.
  - reflexivity.
Defined.

Lemma unique_from_spec (xs seen : list string) :
  NoDup (unique_from seen xs) /\
  forall t, In t (unique_from seen xs) <-> In t xs /\ ~ In t seen.
Proof.
  revert seen. induction xs as [| x xs IH]; intros seen; cbn [unique_from].
  - split; [constructor | intros t; simpl; tauto].
  - destruct (str_in x seen) eqn:Hx.
    + apply str_in_spec in Hx. destruct (IH seen) as [Hnd Hin].
      split; [exact Hnd |]. intros t. rewrite Hin. simpl.
      split; [tauto |]. intros [[<- | Ht] Hs]; [contradiction | tauto].
    + apply str_in_false in Hx. destruct (IH (x :: seen)) as [Hnd Hin].
      split.
      * constructor; [| exact Hnd]. rewrite Hin. simpl. tauto.
      * intros t. simpl. rewrite Hin. simpl.
        destruct (string_dec x t) as [<- | Hne]; tauto.
Qed.

Lemma flag_sum_bounds (df : DataFrame) :
  flags_are_boolean df -> 0 <= sum_col isFraud df <= len df.
Proof.
  unfold flags_are_boolean, len.
  induction 1 as [| r l Hr _ IH]; cbn [sum_col fold_right List.length];
    [lia |].
  fold (sum_col isFraud l). rewrite Nat2Z.inj_succ. lia.
Qed.

Lemma flag_sum_counts_ones (df : DataFrame) :
  flags_are_boolean df ->
  sum_col isFraud df = len (filter (fun r => isFraud r =? 1) df).
Proof.
  unfold flags_are_boolean, len.
  induction 1 as [| r l Hr _ IH]; [reflexivity |].
  cbn [sum_col fold_right filter]. fold (sum_col isFraud l). rewrite IH.
  destruct Hr as [Hr | Hr]; rewrite Hr; cbn [Z.eqb Pos.eqb List.length];
    rewrite ?Nat2Z.inj_succ; lia.
Qed.

Lemma percentage_bounds (s n : Z) :
  0 <= s <= n -> 0 < n ->
  (0 <= inject_Z s / inject_Z n * 100)%Q /\
  (inject_Z s / inject_Z n * 100 <= 100)%Q.
Proof.
  intros Hs Hn.
  assert (Hn' : (0 < inject_Z n)%Q)
    by (change 0%Q with (inject_Z 0); rewrite <- Zlt_Qlt; lia).
  assert (Hs0 : (0 <= inject_Z s)%Q)
    by (change 0%Q with (inject_Z 0); rewrite <- Zle_Qle; lia).
  assert (Hsn : (inject_Z s <= inject_Z n)%Q) by (rewrite <- Zle_Qle; lia).
  assert (H0 : (0 <= inject_Z s / inject_Z n)%Q)
    by (apply Qle_shift_div_l; [assumption | lra]).
  assert (H1 : (inject_Z s / inject_Z n <= 1)%Q)
    by (apply Qle_shift_div_r; [assumption | lra]).
  split; lra.
Qed.

Section WithFiles.

Variable DATA_PATH : string.

(** X21.  [get_data_info] never raises: it reports on the parquet file
    when asked to use it and it is there, on the CSV file otherwise, and
    answers the error dict exactly when the file it falls back on, the
    CSV file, is missing - so with [use_parquet=False] a parquet file is
    not read.  The report gives the row count and the fraud count of the
    file read, a fraud rate that is 0 for an empty file and between 0 and
    100 when the is-fraud column is a 0/1 flag, and each transaction type
    of the file once. *)
Theorem data_info_reports_the_file_it_reads
    (dir : data_dir) (use_parquet : bool) :
  let chosen :=
    match (if use_parquet then parquet_file dir else None) with
    | Some parquet => Some parquet
    | None => csv_file dir
    end in
  (chosen = None ->
     get_data_info DATA_PATH dir use_parquet
       = InfoError ("[Errno 2] No such file or directory: '" ++ DATA_PATH ++ "'")) /\
  (forall df, chosen = Some df ->
     exists rate types,
       get_data_info DATA_PATH dir use_parquet
         = Info (len df) (sum_col isFraud df) rate types /\
       (len df = 0 -> rate = 0%Q) /\
       (flags_are_boolean df -> (0 <= rate)%Q /\ (rate <= 100)%Q) /\
       NoDup types /\
       (forall t, In t types <-> exists r, In r df /\ type r = t)) /\
  (use_parquet = false -> chosen = csv_file dir) /\
  (use_parquet = true -> chosen = dataset_of dir).
Proof.
  intros chosen. subst chosen. unfold get_data_info, read_csv, dataset_of.
  assert (Hinfo : forall df,
    exists rate types,
      Info (len df) (sum_col isFraud df)
        (if 0 <? len df
         then (inject_Z (sum_col isFraud df) / inject_Z (len df) * 100)%Q
         else 0%Q)
        (unique (map type df))
        = Info (len df) (sum_col isFraud df) rate types /\
      (len df = 0 -> rate = 0%Q) /\
      (flags_are_boolean df -> (0 <= rate)%Q /\ (rate <= 100)%Q) /\
      NoDup types /\
      (forall t, In t types <-> exists r, In r df /\ type r = t)).
  { intros df. eexists. eexists. split; [reflexivity |].
    destruct (unique_from_spec (map type df) []) as [Hnd Hin].
    split; [| split; [| split; [exact Hnd |]]].
    - intros H. now rewrite H.
    - intros Hflags. destruct (Z.ltb_spec 0 (len df)) as [Hpos | _].
      + apply percentage_bounds; [apply flag_sum_bounds, Hflags | exact Hpos].
      + split; discriminate.
    - intros t. unfold unique. rewrite Hin, in_map_iff. simpl.
      split; [intros [[r [Hr Hi]] _]; eauto | intros [r [Hi Hr]]; eauto]. }
  destruct use_parquet;
    [destruct (parquet_file dir) as [p |] |];
    destruct (csv_file dir) as [c |];
    (split; [try discriminate; try reflexivity
            | split; [intros df [= <-]; apply Hinfo || (intros df H; discriminate H)
                     | split; [intros; reflexivity || discriminate
                              | intros; reflexivity || discriminate]]]).
Qed.

End WithFiles.

Section Composition.

Variable rng : Type.
Variable seed_rng : Z -> rng.
Variable draw : rng -> Q -> DataFrame -> DataFrame * rng.
Variable DATA_PATH : string.

(** X22.  The counts of [get_data_info] are those of the loaders: on a
    file whose is-fraud column is a 0/1 flag, its row count is the length
    of what [load_data] returns without sampling and its fraud count the
    length of what [load_fraud_only] returns. *)
Theorem data_info_counts_what_the_loaders_return
    (dir : data_dir) (g : rng) (df : DataFrame) :
  dataset_of dir = Some df ->
  flags_are_boolean df ->
  exists total fraud_count rate types rows frauds,
    get_data_info DATA_PATH dir true = Info total fraud_count rate types /\
    fst (load_data rng seed_rng draw dir None g) = Return rows /\
    len rows = total /\
    fst (load_fraud_only rng seed_rng draw dir None g) = Return frauds /\
    len frauds = fraud_count.
Proof.
  intros Hdf Hflags.
  assert (Hread : get_data_info DATA_PATH dir true
            = Info (len df) (sum_col isFraud df)
                (if 0 <? len df
                 then (inject_Z (sum_col isFraud df) / inject_Z (len df) * 100)%Q
                 else 0%Q)
                (unique (map type df))).
  { unfold get_data_info, read_csv. unfold dataset_of in Hdf.
    destruct (parquet_file dir) as [p |]; [now injection Hdf as -> |].
    now rewrite Hdf. }
  unfold load_fraud_only. rewrite load_data_dataset, Hdf. cbn.
  do 6 eexists. split; [exact Hread |].
  split; [reflexivity |].
  split; [unfold len, reset_index; now rewrite relabel_length |].
  split; [reflexivity |].
  unfold reset_index. rewrite filter_relabel by reflexivity.
  unfold len. rewrite relabel_length.
  symmetry. apply flag_sum_counts_ones, Hflags.
Qed.

(** X23.  Converting the CSV file to parquet changes how the data is
    read, not what is loaded: after the conversion [load_data] returns,
    for every sampling fraction, what [_load_csv] returns on the CSV file
    (whose frame is labelled from 0, as read), [get_data_info] reports
    what it reported on the CSV file, the CSV file is as it was, and a
    second conversion changes nothing. *)
Theorem conversion_keeps_what_is_loaded
    (dir : data_dir) (csv : DataFrame) (sample_frac : option Q) (g : rng) :
  csv_file dir = Some csv ->
  reset_index csv = csv ->
  load_data rng seed_rng draw (convert_csv_to_parquet dir) sample_frac g
    = _load_csv rng seed_rng draw csv sample_frac g /\
  get_data_info DATA_PATH (convert_csv_to_parquet dir) true
    = get_data_info DATA_PATH dir false /\
  csv_file (convert_csv_to_parquet dir) = csv_file dir /\
  convert_csv_to_parquet (convert_csv_to_parquet dir)
    = convert_csv_to_parquet dir.
Proof.
  intros Hcsv Hrange.
  unfold convert_csv_to_parquet. rewrite Hcsv. cbn [csv_file].
  rewrite ?Hcsv, Hrange.
  split; [reflexivity |].
  split; [unfold get_data_info, read_csv; cbn; now rewrite ?Hcsv |].
  split; reflexivity.
Qed.

End Composition.

Lemma data_info_counts_what_the_loaders_return_witness :
  dataset_of Samples.both_files = Some Samples.small_df /\
  exists total fraud_count rate types,
    get_data_info "data/paysim.csv" Samples.both_files true
      = Info total fraud_count rate types /\
    fst (load_fraud_only Z Samples.counter_seed Samples.counter_draw
           Samples.both_files None 0)
      = Return (reset_index
                  (filter (fun r => isFraud r =? 1) Samples.small_df)) /\
    len (reset_index (filter (fun r => isFraud r =? 1) Samples.small_df))
      = fraud_count.
Proof.
  split; [reflexivity |].
  destruct (data_info_counts_what_the_loaders_return Z Samples.counter_seed
              Samples.counter_draw "data/paysim.csv" Samples.both_files 0
              Samples.small_df eq_refl OriginHistoryFacts.small_df_flags)
    as [total [fc [rate [types [rows [frauds [Hinfo [_ [_ [Hfr Hlen]]]]]]]]]].
  exists total, fc, rate, types.
  split; [exact Hinfo |].
  assert (E : frauds = reset_index
                (filter (fun r => isFraud r =? 1) Samples.small_df)).
  { cbn in Hfr. now injection Hfr as <-. }
  rewrite <- E. split; [exact Hfr | exact Hlen].
Defined.

Lemma conversion_keeps_what_is_loaded_witness :
  csv_file Samples.both_files = Some Samples.clean_df /\
  reset_index Samples.clean_df = Samples.clean_df /\
  load_data Z Samples.counter_seed Samples.counter_draw
    (convert_csv_to_parquet Samples.both_files) (Some 0.5%Q) 0
  = _load_csv Z Samples.counter_seed Samples.counter_draw
      Samples.clean_df (Some 0.5%Q) 0.
Proof.
  split; [reflexivity | split; [reflexivity |]].
  apply (conversion_keeps_what_is_loaded Z Samples.counter_seed
           Samples.counter_draw "data/paysim.csv" Samples.both_files
           Samples.clean_df (Some 0.5%Q) 0 eq_refl eq_refl).
Defined.

End LoaderMoreFacts.

(** ** The page *)

Module AppFacts.
Import Py PyNum PyNumFacts StringFacts Store Tools MoreTools Loader App.
Import LoaderFacts.

Lemma max_at_least_one (x : Q) : (1 <= max x 1)%Q /\ (x <= max x 1)%Q.
Proof.
  unfold max. destruct (gt 1 x) eqn:H.
  - apply gt_true in H. split; lra.
  - apply gt_false in H. split; lra.
Qed.



Section WithGenerator.

Variable rng : Type.
Variable seed_rng : Z -> rng.
Variable draw : rng -> Q -> DataFrame -> DataFrame * rng.

(** X24.  Every position of the page's slider, 1 to 100 percent, is a
    valid sampling fraction: [get_data] never raises the range error, and
    with a data file there it returns the sampled frame.  A percentage of
    0 or above 100 would raise it. *)
Theorem slider_percentages_are_valid_fractions
    (dir : data_dir) (sample : Z) (g : rng) :
  (1 <= sample <= 100 ->
     fst (get_data rng seed_rng draw dir sample g) <> Raise range_error /\
     forall df, dataset_of dir = Some df ->
       fst (get_data rng seed_rng draw dir sample g)
         = Return (reset_index
                     (fst (draw (seed_rng 42) (inject_Z sample / 100) df)))) /\
  (sample <= 0 \/ 100 < sample ->
     forall df, dataset_of dir = Some df ->
       fst (get_data rng seed_rng draw dir sample g) = Raise range_error).
Proof.
  assert (Hpos : forall z, (0 < inject_Z z / 100)%Q <-> 0 < z).
  { intros z. rewrite (Zlt_Qlt 0 z). change (inject_Z 0) with 0%Q.
    split; intros H.
    - assert (E : (inject_Z z == inject_Z z / 100 * 100)%Q) by field. lra.
    - apply Qlt_shift_div_l; lra. }
  assert (Hle : forall z, (inject_Z z / 100 <= 1)%Q <-> z <= 100).
  { intros z. rewrite (Zle_Qle z 100). change (inject_Z 100) with 100%Q.
    split; intros H.
    - assert (E : (inject_Z z == inject_Z z / 100 * 100)%Q) by field. lra.
    - apply Qle_shift_div_r; lra. }
  unfold get_data. rewrite load_data_dataset.
  unfold _load_parquet, Loader.sample. split.
  - intros Hs.
    assert (Hin : (gt (inject_Z sample / 100) 0
                   && le (inject_Z sample / 100) 1)%bool = true).
    { apply in_range_iff. rewrite Hpos, Hle. lia. }
    rewrite Hin. destruct (dataset_of dir) as [df |]; cbn.
    + split; [discriminate |]. intros df' [= <-]. reflexivity.
    + split; [discriminate |]. intros df' H. discriminate H.
  - intros Hs df Hdf. rewrite Hdf.
    assert (Hout : (gt (inject_Z sample / 100) 0
                    && le (inject_Z sample / 100) 1)%bool = false).
    { apply out_of_range_iff. destruct Hs as [Hs | Hs].
      - left. apply Qnot_lt_le. rewrite Hpos. lia.
      - right. apply Qnot_le_lt. rewrite Hle. lia. }
    now rewrite Hout.
Qed.

End WithGenerator.


(** Below a balance of 1 the page understates: 50 from a balance of 0.5 is
    shown as 50 times the balance, where the tool scores a ratio of 100. *)
Example ratio_shown_below_one :
  (quick_ratio (mkRecord 0 1 "CASH_OUT" 50 "C1" 0.5 0 "C2" 0 0 0 0) == 50)%Q /\
  (50 / 0.5 == 100)%Q.
Proof. split; reflexivity. Qed.

End AppFacts.
